(** * gtlb-api: the GitLab API driver ([src/api-driver.js])

    A shallow embedding of the class [GitlabApiDriver] and of what it
    needs from its surroundings.

    - JavaScript strings are held as [string]: a well-formed string as
      its UTF-8 bytes.  (A string with a lone surrogate has no such
      form; [encodeURIComponent] throws on those.)
    - JavaScript values are the type [js_value]; numbers are integers
      ([Z]), non-integral numbers are left out.
    - [axios] is modelled with its default [validateStatus]: a reply
      whose status is in 200..299 resolves the promise, every other
      reply and every failure without a reply rejects it.
    - The methods run in a small state-and-exception monad [M] whose
      state holds the object [this], the console and the list of the
      requests sent so far. *)

From Stdlib Require Import String Ascii List ZArith Lia Bool.
From Stdlib Require Import DecimalString.
Import ListNotations.

Local Open Scope string_scope.
Local Open Scope Z_scope.

(** ** Strings *)

Module Str.

(** The line feed written [\n] in the source. *)
Definition LF : string := String (ascii_of_nat 10) EmptyString.

Definition slash : ascii := "/"%char.

(** [s.startsWith(p)] *)
Definition startsWith (s p : string) : bool := String.prefix p s.

(** [s.slice(n)] for [0 <= n]. *)
Fixpoint slice (n : nat) (s : string) : string :=
  match n, s with
  | O, _ => s
  | S _, EmptyString => EmptyString
  | S m, String _ rest => slice m rest
  end.

(** [s.replace(pat, by)] with a string pattern: the first occurrence
    of [pat] is replaced, the rest of [s] is kept. *)
Fixpoint replace (s pat by_ : string) : string :=
  if String.prefix pat s then by_ ++ slice (String.length pat) s
  else match s with
       | EmptyString => EmptyString
       | String c rest => String c (replace rest pat by_)
       end.

(** The string of [n] slashes. *)
Fixpoint slashes (n : nat) : string :=
  match n with
  | O => EmptyString
  | S m => String slash (slashes m)
  end.

(** [c] occurs in [s]. *)
Fixpoint In (c : ascii) (s : string) : Prop :=
  match s with
  | EmptyString => False
  | String d rest => d = c \/ In c rest
  end.

(** Last character of [s], when there is one. *)
Fixpoint last (s : string) : option ascii :=
  match s with
  | EmptyString => None
  | String c EmptyString => Some c
  | String _ rest => last rest
  end.

Definition head (s : string) : option ascii :=
  match s with
  | EmptyString => None
  | String c _ => Some c
  end.

End Str.

(** ** The helpers imported from [./util.js] *)

(** Modelled from the spec: [trimTailingSlash] of [./util.js], which is
    not part of the sources at hand.  The spec asks for a base URL with
    "no trailing slash": the slashes at the end of [str] are removed. *)
Fixpoint trimTailingSlash (str : string) : string :=
  match str with
  | EmptyString => EmptyString
  | String c rest =>
      match trimTailingSlash rest with
      | EmptyString =>
          if Ascii.eqb c Str.slash then EmptyString else String c EmptyString
      | kept => String c kept
      end
  end.

(** Modelled from the spec: [trimLeadingSlash] of [./util.js], which is
    not part of the sources at hand; the slashes at the start of [str]
    are removed. *)
Fixpoint trimLeadingSlash (str : string) : string :=
  match str with
  | EmptyString => EmptyString
  | String c rest =>
      if Ascii.eqb c Str.slash then trimLeadingSlash rest else str
  end.

(** Modelled from the spec: [trimSlashes] of [./util.js], which is not
    part of the sources at hand: "strip leading/trailing slashes". *)
Definition trimSlashes (str : string) : string :=
  trimLeadingSlash (trimTailingSlash str).

(** ** [encodeURIComponent]

    The built-in of the language: the characters [A-Z a-z 0-9 - _ . ! ~
    * ' ( )] are kept, every other byte of the UTF-8 form becomes [%XX]
    with upper-case hexadecimal digits. *)

Module URI.

Definition between (lo hi n : nat) : bool :=
  (Nat.leb lo n && Nat.leb n hi)%bool.

Definition unescaped (c : ascii) : bool :=
  let n := nat_of_ascii c in
  (between 65 90 n || between 97 122 n || between 48 57 n
   || existsb (Ascii.eqb c)
        ["-"; "_"; "."; "!"; "~"; "*"; "'"; "("; ")"]%char)%bool.

Definition hexDigit (n : nat) : ascii :=
  if Nat.ltb n 10 then ascii_of_nat (48 + n) else ascii_of_nat (55 + n).

Definition escape (c : ascii) : string :=
  let n := nat_of_ascii c in
  String "%" (String (hexDigit (n / 16)) (String (hexDigit (n mod 16)) EmptyString)).

End URI.

Fixpoint encodeURIComponent (uriComponent : string) : string :=
  match uriComponent with
  | EmptyString => EmptyString
  | String c rest =>
      if URI.unescaped c then String c (encodeURIComponent rest)
      else URI.escape c ++ encodeURIComponent rest
  end.

(** ** JavaScript values *)

Set Warnings "-register-all".

Inductive js_value : Type :=
| JUndefined
| JNull
| JBoolean (b : bool)
| JInteger (n : Z)
| JString (s : string)
| JArray (items : list js_value)
| JObject (properties : list (string * js_value)).

(** [String(n)] for an integer [n]. *)
Definition Number_toString (n : Z) : string :=
  NilZero.string_of_int (Z.to_int n).

Fixpoint join (sep : string) (parts : list string) : string :=
  match parts with
  | [] => EmptyString
  | [p] => p
  | p :: rest => p ++ sep ++ join sep rest
  end.

(** The conversion a template literal applies to an interpolated
    value. *)
Fixpoint ToString (v : js_value) : string :=
  match v with
  | JUndefined => "undefined"
  | JNull => "null"
  | JBoolean true => "true"
  | JBoolean false => "false"
  | JInteger n => Number_toString n
  | JString s => s
  | JArray items =>
      join ","
        (map (fun item =>
                match item with
                | JUndefined | JNull => EmptyString
                | _ => ToString item
                end) items)
  | JObject _ => "[object Object]"
  end.

Fixpoint lookup (name : string) (properties : list (string * js_value))
  : option js_value :=
  match properties with
  | [] => None
  | (k, v) :: rest => if String.eqb k name then Some v else lookup name rest
  end.

(** ** Project identifiers *)

(** The object [resolveProjectIdentifier] returns: the property [id],
    the property [path], or neither. *)
Record ResolvedIdentifier : Type := {
  id : option Z;
  path : option string
}.

Module Parse.

Definition digit (c : ascii) : option Z :=
  let n := nat_of_ascii c in
  if URI.between 48 57 n then Some (Z.of_nat (n - 48)) else None.

Fixpoint digits (acc : Z) (s : string) : option Z :=
  match s with
  | EmptyString => Some acc
  | String c rest =>
      match digit c with
      | Some d => digits (10 * acc + d) rest
      | None => None
      end
  end.

(** The integer a string spells, when it spells one: decimal digits,
    with or without a minus sign in front. *)
Definition integer (s : string) : option Z :=
  match s with
  | EmptyString => None
  | String "-" (String _ _ as magnitude) => option_map Z.opp (digits 0 magnitude)
  | _ => digits 0 s
  end.

End Parse.

(** Modelled from the spec: [resolveProjectIdentifier] of [./util.js],
    which is not part of the sources at hand (spec, 4.1).  An integer or
    an integer-valued string gives the numeric id; any other non-empty
    string gives a path, with [baseUrl] removed from its start when it
    starts with it and the slashes trimmed at both ends; anything else
    gives neither. *)
Definition resolveProjectIdentifier (baseUrl : string) (identifier : js_value)
  : ResolvedIdentifier :=
  match identifier with
  | JInteger n => {| id := Some n; path := None |}
  | JString s =>
      match Parse.integer s with
      | Some n => {| id := Some n; path := None |}
      | None =>
          if String.eqb s EmptyString then {| id := None; path := None |}
          else
            let rest :=
              if Str.startsWith s baseUrl
              then Str.slice (String.length baseUrl) s
              else s in
            {| id := None; path := Some (trimSlashes rest) |}
      end
  | _ => {| id := None; path := None |}
  end.

(** ** Requests, responses and the transport *)

Inductive Method : Type := GET | POST | PUT.

(** The second or third argument of [axios.get], [axios.post],
    [axios.put]. *)
Record RequestConfig : Type := {
  headers : list (string * string)
}.

Record Request : Type := {
  method : Method;
  url : string;
  body : option js_value;
  options : RequestConfig
}.

Record Response : Type := {
  status : Z;
  data : js_value
}.

(** What the remote end does with one request: it replies, or no reply
    arrives (connection refused, reset, time-out, ...). *)
Inductive Outcome : Type :=
| Reply (res : Response)
| NoReply (message : string).

(** The remote end: its answer to a request, given the requests that
    came before. *)
Definition Network : Type := list Request -> Request -> Outcome.

(** What a [throw] carries.  [AxiosError] is the rejection of an axios
    promise, [response] being the property [e.response]; [Error] is a
    plain [new Error(message)]; [GitlabApiError] is the class at the end
    of the source file; [TypeError] is the language's own. *)
Inductive Thrown : Type :=
| AxiosError (response : option Response) (message : string)
| Error (message : string)
| GitlabApiError (message : string)
| TypeError (message : string).

(** [`${e}`] for a thrown [e]. *)
Definition Thrown_toString (e : Thrown) : string :=
  match e with
  | AxiosError _ message => "AxiosError: " ++ message
  | Error message => "Error: " ++ message
  | GitlabApiError message => "GitlabApiError: " ++ message
  | TypeError message => "TypeError: " ++ message
  end.

(** ** The driver object *)

Definition API_PATH : string := "/api/v4".

Record GitlabApiDriver : Type := {
  VERBOSE : bool;
  BASE_URL : string;
  API_URL : string;
  AT : string;
  config : RequestConfig
}.

(** ** The monad of the methods *)

(** The state a method runs in: the driver object, the lines written by
    [console.log], and the requests handed to axios, oldest first. *)
Record World : Type := {
  this : GitlabApiDriver;
  console : list string;
  sent : list Request
}.

(** How a computation ends. *)
Inductive Completion (A : Type) : Type :=
| Return (value : A)
| Throw (e : Thrown).

Arguments Return {A} value.
Arguments Throw {A} e.

Definition M (A : Type) : Type := Network -> World -> Completion A * World.

Definition ret {A : Type} (a : A) : M A :=
  fun _ w => (Return a, w).

Definition throw {A : Type} (e : Thrown) : M A :=
  fun _ w => (Throw e, w).

Definition bind {A B : Type} (m : M A) (k : A -> M B) : M B :=
  fun net w =>
    match m net w with
    | (Return a, w') => k a net w'
    | (Throw e, w') => (Throw e, w')
    end.

(** [try { body } catch(e) { handler }] *)
Definition try_catch {A : Type} (body : M A) (handler : Thrown -> M A) : M A :=
  fun net w =>
    match body net w with
    | (Return a, w') => (Return a, w')
    | (Throw e, w') => handler e net w'
    end.

Definition get_this : M GitlabApiDriver :=
  fun _ w => (Return (this w), w).

(** An assignment to a property of [this]. *)
Definition set_this (update : GitlabApiDriver -> GitlabApiDriver) : M unit :=
  fun _ w =>
    (Return tt,
     {| this := update (this w); console := console w; sent := sent w |}).

Declare Scope js_scope.
Delimit Scope js_scope with js.

Notation "x <- m ;; k" := (bind m (fun x => k))
  (at level 61, m at next level, right associativity) : js_scope.
Notation "m ;; k" := (bind m (fun _ => k))
  (at level 61, right associativity) : js_scope.
Notation "'try' body 'catch' e '=>' handler" :=
  (try_catch body (fun e => handler))
  (at level 61, body at level 60, e name, handler at level 61) : js_scope.

Local Open Scope js_scope.

(** [console.log(line)] *)
Definition console_log (line : string) : M unit :=
  fun _ w =>
    (Return tt,
     {| this := this w; console := console w ++ [line]; sent := sent w |}).

(** [if(this.VERBOSE) console.log(line);] *)
Definition log_if_verbose (line : string) : M unit :=
  self <- get_this ;;
  if VERBOSE self then console_log line else ret tt.

(** The status codes for which the default [validateStatus] of axios
    resolves the promise. *)
Definition validateStatus (code : Z) : bool :=
  ((200 <=? code) && (code <? 300))%bool.

(** One request through axios: the request goes out and the promise
    resolves with the response or rejects with an [AxiosError]. *)
Definition axios_request (req : Request) : M Response :=
  fun net w =>
    let w' := {| this := this w; console := console w; sent := sent w ++ [req] |} in
    match net (sent w) req with
    | Reply res =>
        if validateStatus (status res) then (Return res, w')
        else (Throw (AxiosError (Some res)
                       ("Request failed with status code " ++ Number_toString (status res))),
              w')
    | NoReply message => (Throw (AxiosError None message), w')
    end.

(** [axios.get(url, config)] *)
Definition axios_get (url : string) (config : RequestConfig) : M Response :=
  axios_request {| method := GET; url := url; body := None; options := config |}.

(** [axios.post(url, data, config)] *)
Definition axios_post (url : string) (data : js_value) (config : RequestConfig)
  : M Response :=
  axios_request {| method := POST; url := url; body := Some data; options := config |}.

(** [axios.put(url, data, config)] *)
Definition axios_put (url : string) (data : js_value) (config : RequestConfig)
  : M Response :=
  axios_request {| method := PUT; url := url; body := Some data; options := config |}.

(** [typeof e.response !== 'undefined' && e.response.status === 404];
    of the values thrown here only an [AxiosError] has a property
    [response]. *)
Definition is_not_found (e : Thrown) : bool :=
  match e with
  | AxiosError (Some res) _ => status res =? 404
  | _ => false
  end.

(** [project.default_branch]: reading a property of [undefined] or
    [null] throws; an object gives the property or [undefined]; no
    other value has a property of this name. *)
Definition default_branch (project : js_value) : Completion js_value :=
  match project with
  | JUndefined =>
      Throw (TypeError "Cannot read properties of undefined (reading 'default_branch')")
  | JNull =>
      Throw (TypeError "Cannot read properties of null (reading 'default_branch')")
  | JObject properties =>
      match lookup "default_branch" properties with
      | Some v => Return v
      | None => Return JUndefined
      end
  | _ => Return JUndefined
  end.

(** A step that touches neither the world nor the network. *)
Definition lift {A : Type} (c : Completion A) : M A :=
  fun _ w => (c, w).

(** ** The class [GitlabApiDriver] *)

Definition set_VERBOSE (v : bool) : M unit :=
  set_this (fun o => {| VERBOSE := v; BASE_URL := BASE_URL o; API_URL := API_URL o;
                        AT := AT o; config := config o |}).

Definition set_BASE_URL (v : string) : M unit :=
  set_this (fun o => {| VERBOSE := VERBOSE o; BASE_URL := v; API_URL := API_URL o;
                        AT := AT o; config := config o |}).

Definition set_API_URL (v : string) : M unit :=
  set_this (fun o => {| VERBOSE := VERBOSE o; BASE_URL := BASE_URL o; API_URL := v;
                        AT := AT o; config := config o |}).

Definition set_AT (v : string) : M unit :=
  set_this (fun o => {| VERBOSE := VERBOSE o; BASE_URL := BASE_URL o; API_URL := API_URL o;
                        AT := v; config := config o |}).

Definition set_config (v : RequestConfig) : M unit :=
  set_this (fun o => {| VERBOSE := VERBOSE o; BASE_URL := BASE_URL o; API_URL := API_URL o;
                        AT := AT o; config := v |}).

(** [constructor(baseUrl, accessToken, verbose)] *)
Definition constructor (baseUrl accessToken : string) (verbose : bool) : M unit :=
  set_VERBOSE verbose ;;
  set_BASE_URL (trimTailingSlash baseUrl) ;;
  self <- get_this ;;
  (if Str.startsWith (BASE_URL self) "http://"
   then set_BASE_URL (Str.replace (BASE_URL self) "http://" "https://")
   else ret tt) ;;
  self <- get_this ;;
  (if negb (Str.startsWith (BASE_URL self) "https://")
   then set_BASE_URL ("https://" ++ BASE_URL self)
   else ret tt) ;;
  self <- get_this ;;
  set_API_URL (BASE_URL self ++ API_PATH) ;;
  set_AT accessToken ;;
  self <- get_this ;;
  set_config {| headers := [("PRIVATE-TOKEN", AT self)] |}.

(** The object before its constructor has run. *)
Definition blank : GitlabApiDriver :=
  {| VERBOSE := false; BASE_URL := EmptyString; API_URL := EmptyString;
     AT := EmptyString; config := {| headers := [] |} |}.

(** A remote end that never replies. *)
Definition offline : Network := fun _ _ => NoReply "offline".

(** A world around the driver [o] in which nothing has happened yet. *)
Definition world_of (o : GitlabApiDriver) : World :=
  {| this := o; console := []; sent := [] |}.

(** [new GitlabApiDriver(baseUrl, accessToken, verbose)] *)
Definition new_GitlabApiDriver (baseUrl accessToken : string) (verbose : bool)
  : GitlabApiDriver :=
  this (snd (constructor baseUrl accessToken verbose offline (world_of blank))).

(** [getProjectUrl(identifier)] *)
Definition getProjectUrl (identifier : js_value) : M string :=
  self <- get_this ;;
  let resolvedIdentifier := resolveProjectIdentifier (BASE_URL self) identifier in
  match id resolvedIdentifier with
  | Some n => ret (API_URL self ++ "/projects/" ++ Number_toString n)
  | None =>
      match path resolvedIdentifier with
      | Some p =>
          let encodedPath := encodeURIComponent (trimSlashes p) in
          ret (API_URL self ++ "/projects/" ++ encodedPath)
      | None =>
          throw (Error ("'" ++ ToString identifier
                        ++ "' is an invalid identifier for a project"))
      end
  end.

Definition original (e : Thrown) : string :=
  Str.LF ++ Str.LF ++ "Original Error:" ++ Str.LF ++ Thrown_toString e.

(** [getProject(identifier)] *)
Definition getProject (identifier : js_value) : M js_value :=
  url <- getProjectUrl identifier ;;
  try (log_if_verbose ("GET > " ++ url) ;;
       self <- get_this ;;
       res <- axios_get url (config self) ;;
       ret (data res))
  catch e =>
    throw (GitlabApiError ("Error requesting project identified by '"
                           ++ ToString identifier ++ "'" ++ original e)).

(** [getBranches(projectIdentifier)] *)
Definition getBranches (projectIdentifier : js_value) : M js_value :=
  projectUrl <- getProjectUrl projectIdentifier ;;
  let url := projectUrl ++ "/repository/branches" in
  try (log_if_verbose ("GET > " ++ url) ;;
       self <- get_this ;;
       res <- axios_get url (config self) ;;
       ret (data res))
  catch e =>
    throw (GitlabApiError ("Error requesting branchs for project identified by '"
                           ++ ToString projectIdentifier ++ "'" ++ original e)).

(** [branchExists(projectId, branchName)] *)
Definition branchExists (projectId branchName : js_value) : M bool :=
  self <- get_this ;;
  let url := API_URL self ++ "/projects/" ++ ToString projectId
             ++ "/repository/branches/" ++ ToString branchName in
  try (log_if_verbose ("GET > " ++ url) ;;
       self <- get_this ;;
       res <- axios_get url (config self) ;;
       ret (status res =? 200))
  catch e =>
    if is_not_found e then ret false
    else throw (GitlabApiError ("Error requesting branch '" ++ ToString branchName
                                ++ "' for project ID '" ++ ToString projectId
                                ++ "'" ++ original e)).

(** [fileExists(projectId, branchName, filePath)] *)
Definition fileExists (projectId branchName : js_value) (filePath : string)
  : M bool :=
  self <- get_this ;;
  let encodedFilePath := encodeURIComponent (trimSlashes filePath) in
  let url := API_URL self ++ "/projects/" ++ ToString projectId
             ++ "/repository/files/" ++ encodedFilePath
             ++ "?ref=" ++ ToString branchName in
  try (log_if_verbose ("GET > " ++ url) ;;
       self <- get_this ;;
       res <- axios_get url (config self) ;;
       ret (status res =? 200))
  catch e =>
    if is_not_found e then ret false
    else throw (GitlabApiError ("Error requesting file '" ++ filePath
                                ++ "' from branch '" ++ ToString branchName
                                ++ "' for project ID '" ++ ToString projectId
                                ++ "'" ++ original e)).

(** The headers of the two methods that send a commit. *)
Definition json_config (self : GitlabApiDriver) : RequestConfig :=
  {| headers := [("PRIVATE-TOKEN", AT self); ("Content-Type", "application/json")] |}.

(** [postCommit(projectId, commitObject)] *)
Definition postCommit (projectId commitObject : js_value) : M bool :=
  self <- get_this ;;
  let url := API_URL self ++ "/projects/" ++ ToString projectId
             ++ "/repository/commits" in
  let config := json_config self in
  try (log_if_verbose ("POST > " ++ url) ;;
       res <- axios_post url commitObject config ;;
       ret (status res =? 201))
  catch e =>
    throw (GitlabApiError ("Error executing commit on project ID '"
                           ++ ToString projectId ++ "'" ++ original e)).

(** [postSnippetCommit(snippetId, commitObject)] *)
Definition postSnippetCommit (snippetId commitObject : js_value) : M bool :=
  self <- get_this ;;
  let url := API_URL self ++ "/snippets/" ++ ToString snippetId in
  let config := json_config self in
  try (log_if_verbose ("PUT > " ++ url) ;;
       res <- axios_put url commitObject config ;;
       ret (status res =? 201))
  catch e =>
    throw (GitlabApiError ("Error executing commit on snippet ID '"
                           ++ ToString snippetId ++ "'" ++ original e)).

(** [getRawFile(projectIdentifier, filePath, branchName)]; an argument
    left out is [JUndefined]. *)
Definition getRawFile (projectIdentifier : js_value) (filePath : string)
  (branchName : js_value) : M js_value :=
  branchName <-
    (match branchName with
     | JUndefined =>
         project <- getProject projectIdentifier ;;
         lift (default_branch project)
     | _ => ret branchName
     end) ;;
  let encodedFilePath := encodeURIComponent (trimSlashes filePath) in
  projectUrl <- getProjectUrl projectIdentifier ;;
  let url := projectUrl ++ "/repository/files/" ++ encodedFilePath
             ++ "/raw?ref=" ++ ToString branchName in
  try (log_if_verbose ("GET > " ++ url) ;;
       self <- get_this ;;
       res <- axios_get url (config self) ;;
       if status res =? 200 then ret (data res) else ret JUndefined)
  catch e =>
    throw (GitlabApiError ("Error requesting raw file '" ++ filePath
                           ++ "' from branch '" ++ ToString branchName
                           ++ "' for project identified by '"
                           ++ ToString projectIdentifier ++ "'" ++ original e)).

(** [getVersion()] *)
Definition getVersion : M js_value :=
  self <- get_this ;;
  let url := API_URL self ++ "/version" in
  try (log_if_verbose ("GET > " ++ url) ;;
       self <- get_this ;;
       res <- axios_get url (config self) ;;
       if status res =? 200 then ret (data res) else ret JNull)
  catch e =>
    throw (GitlabApiError ("Error retrieving API version." ++ original e)).

(** ** Vocabulary of the statements *)

(** The request [axios.get(address, this.config)] sends. *)
Definition get_request (self : GitlabApiDriver) (address : string) : Request :=
  {| method := GET; url := address; body := None; options := config self |}.

(** The address [branchExists] asks. *)
Definition branchUrl (self : GitlabApiDriver) (projectId branchName : js_value)
  : string :=
  API_URL self ++ "/projects/" ++ ToString projectId
  ++ "/repository/branches/" ++ ToString branchName.

(** The address [fileExists] asks. *)
Definition fileUrl (self : GitlabApiDriver) (projectId branchName : js_value)
  (filePath : string) : string :=
  API_URL self ++ "/projects/" ++ ToString projectId
  ++ "/repository/files/" ++ encodeURIComponent (trimSlashes filePath)
  ++ "?ref=" ++ ToString branchName.

(** The three answers of an existence check. *)
Inductive Verdict : Type := Affirmed | Denied | Failed.

(** The answer of an existence check, read off the outcome of its one
    request. *)
Definition verdict (o : Outcome) : Verdict :=
  match o with
  | Reply res =>
      if status res =? 200 then Affirmed
      else if ((status res =? 404) || validateStatus (status res))%bool then Denied
      else Failed
  | NoReply _ => Failed
  end.

(** What the two existence checks make of the outcome [o] of their
    request, [r] being how the method completes: [true] for a reply
    200; [false] for a reply 404 and for a reply with another status in
    200..299; [GitlabApiError] in every other case. *)
Definition existence_policy (o : Outcome) (r : Completion bool) : Prop :=
  (r = Return true <-> exists res, o = Reply res /\ status res = 200) /\
  (r = Return false <->
     exists res, o = Reply res /\ (status res = 404 \/ 200 < status res < 300)) /\
  ((exists message, r = Throw (GitlabApiError message)) <->
     forall res, o = Reply res -> status res <> 404 /\ ~ (200 <= status res < 300)).

(** A remote end with one answer to everything. *)
Definition always (o : Outcome) : Network := fun _ _ => o.

(** A driver and a world to evaluate the methods in. *)
Definition example_driver : GitlabApiDriver :=
  new_GitlabApiDriver "example.com" "glpat-token" false.

Definition example_world : World := world_of example_driver.

(** A reply 204 (No Content). *)
Definition no_content : Response := {| status := 204; data := JNull |}.

(** What the two commit methods make of the outcome [o] of their
    request, [r] being how the method completes: [true] for a reply
    201, [false] for a reply with another status in 200..299,
    [GitlabApiError] for every other reply and for no reply. *)
Definition commit_policy (o : Outcome) (r : Completion bool) : Prop :=
  (r = Return true <-> exists res, o = Reply res /\ status res = 201) /\
  (r = Return false <->
     exists res, o = Reply res /\ 200 <= status res < 300 /\ status res <> 201) /\
  ((exists message, r = Throw (GitlabApiError message)) <->
     forall res, o = Reply res -> ~ (200 <= status res < 300)).

(** The answer of a commit method, read off the outcome of its one
    request. *)
Definition commit_verdict (o : Outcome) : Verdict :=
  match o with
  | Reply res =>
      if status res =? 201 then Affirmed
      else if validateStatus (status res) then Denied
      else Failed
  | NoReply _ => Failed
  end.

(** The plain [Error] that [getProjectUrl] throws for an identifier it
    cannot use. *)
Definition invalid_identifier (identifier : js_value) : Thrown :=
  Error ("'" ++ ToString identifier ++ "' is an invalid identifier for a project").

(** The console of [w] after [if(this.VERBOSE) console.log(line)]. *)
Definition logged (w : World) (line : string) : list string :=
  if VERBOSE (this w) then (console w ++ [line])%list else console w.

(** The address [getRawFile] asks, from the address of the project. *)
Definition rawFileUrl (projectUrl filePath : string) (branchName : js_value)
  : string :=
  projectUrl ++ "/repository/files/" ++ encodeURIComponent (trimSlashes filePath)
  ++ "/raw?ref=" ++ ToString branchName.

(** What [getRawFile] makes of the outcome [o] of its request for the
    file, [r] being how the method completes. *)
Definition raw_file_policy (o : Outcome) (r : Completion js_value) : Prop :=
  (forall res, o = Reply res -> status res = 200 -> r = Return (data res)) /\
  (forall res, o = Reply res -> 200 <= status res < 300 -> status res <> 200 ->
     r = Return JUndefined) /\
  ((exists message, r = Throw (GitlabApiError message)) <->
     forall res, o = Reply res -> ~ (200 <= status res < 300)).

(** A remote end that knows one project, with default branch [main],
    and answers every later request with the text of a file. *)
Definition example_project : js_value :=
  JObject [("id", JInteger 7); ("default_branch", JString "main")].

Definition example_gitlab : Network :=
  fun past _ =>
    match past with
    | [] => Reply {| status := 200; data := example_project |}
    | _ => Reply {| status := 200; data := JString "# gtlb-api" |}
    end.

(** A reply 404 (Not Found). *)
Definition not_found : Response := {| status := 404; data := JNull |}.

(** A computation that leaves the driver object as it found it,
    whatever the remote end does and however it completes. *)
Definition keeps_this {A : Type} (m : M A) : Prop :=
  forall (net : Network) (w : World), this (snd (m net w)) = this w.

(** ** Vocabulary of the further properties *)

(** What [getVersion] makes of the outcome [o] of its request: the body
    for a reply 200, [null] for another status in 200..299, a
    [GitlabApiError] for every other reply and for no reply. *)
Definition version_policy (o : Outcome) (r : Completion js_value) : Prop :=
  (forall res, o = Reply res -> status res = 200 -> r = Return (data res)) /\
  (forall res, o = Reply res -> 200 <= status res < 300 -> status res <> 200 ->
     r = Return JNull) /\
  ((exists message, r = Throw (GitlabApiError message)) <->
     forall res, o = Reply res -> ~ (200 <= status res < 300)).

(** What [getProject] and [getBranches] make of the outcome [o] of
    their request: the body for every status in 200..299, a
    [GitlabApiError] for every other reply, 404 included, and for no
    reply. *)
Definition body_policy (o : Outcome) (r : Completion js_value) : Prop :=
  (forall res, o = Reply res -> 200 <= status res < 300 -> r = Return (data res)) /\
  ((exists message, r = Throw (GitlabApiError message)) <->
     forall res, o = Reply res -> ~ (200 <= status res < 300)).

(** The name of a method as the log lines spell it. *)
Definition method_name (m : Method) : string :=
  match m with
  | GET => "GET"
  | POST => "POST"
  | PUT => "PUT"
  end.

(** The line the methods log for the request [req]. *)
Definition log_line (req : Request) : string :=
  method_name (method req) ++ " > " ++ url req.

(** A request as the driver [self] makes them: to an address under its
    API root, with its own configuration or with the configuration of
    the commit methods. *)
Definition well_formed (self : GitlabApiDriver) (req : Request) : Prop :=
  (exists rest, url req = API_URL self ++ rest)
  /\ (options req = config self \/ options req = json_config self).

(** Run on the driver [self], [m] leaves the driver as it is, keeps the
    requests sent before and adds at most [n] requests, each well
    formed. *)
Definition sends {A : Type} (self : GitlabApiDriver) (n : nat) (m : M A) : Prop :=
  forall (net : Network) (w : World),
    this w = self ->
    this (snd (m net w)) = self
    /\ exists new,
         sent (snd (m net w)) = (sent w ++ new)%list
         /\ (length new <= n)%nat
         /\ Forall (well_formed self) new.




(** The driver with its verbose flag off. *)
Definition mute (self : GitlabApiDriver) : GitlabApiDriver :=
  {| VERBOSE := false; BASE_URL := BASE_URL self; API_URL := API_URL self;
     AT := AT self; config := config self |}.

(** The world with the verbose flag off and the console wiped: what is
    left is all that may bear on what a method answers and sends. *)
Definition hush (w : World) : World :=
  {| this := mute (this w); console := []; sent := sent w |}.

(** [m] answers and sends the same with the verbose flag on or off. *)
Definition deaf_to_verbose {A : Type} (m : M A) : Prop :=
  forall (net : Network) (w : World),
    fst (m net w) = fst (m net (hush w))
    /\ hush (snd (m net w)) = hush (snd (m net (hush w))).

(** [m] logs one line for each request it sends, in the order of the
    requests, when the verbose flag is on, and nothing when it is
    off. *)
Definition logs_its_requests {A : Type} (m : M A) : Prop :=
  forall (net : Network) (w : World),
    exists new,
      sent (snd (m net w)) = (sent w ++ new)%list
      /\ console (snd (m net w))
         = (console w ++ if VERBOSE (this w) then map log_line new else [])%list.

(** No character of [s] is one of the delimiters [/ ? # & =] of an
    address. *)
Definition no_delimiter (s : string) : Prop :=
  forall c, Str.In c s ->
    c <> "/"%char /\ c <> "?"%char /\ c <> "#"%char /\ c <> "&"%char /\ c <> "="%char.

(** The completion [r] is a thrown [TypeError]. *)
Definition is_TypeError_thrown {A : Type} (r : Completion A) : Prop :=
  exists message, r = Throw (TypeError message).

(** Whatever the remote end does, [m] keeps the requests sent before and
    adds at most [n]. *)
Definition appends_at_most {A : Type} (n : nat) (m : M A) : Prop :=
  forall (net : Network) (w : World),
    exists new,
      sent (snd (m net w)) = (sent w ++ new)%list /\ (length new <= n)%nat.

(** A request to an [https] address that carries [token] in the header
    [PRIVATE-TOKEN]. *)
Definition secure_with_token (token : string) (req : Request) : Prop :=
  (exists rest, url req = "https://" ++ rest)
  /\ In ("PRIVATE-TOKEN", token) (headers (options req)).

(** Run on the driver [self], every request [m] adds satisfies [P]. *)
Definition adds_only {A : Type} (P : Request -> Prop) (self : GitlabApiDriver)
  (m : M A) : Prop :=
  forall (net : Network) (lines : list string) (before : list Request),
    exists new,
      sent (snd (m net {| this := self; console := lines; sent := before |}))
      = (before ++ new)%list
      /\ Forall P new.

(** * Properties *)

(** ** Running the monad *)

Ltac run_method :=
  cbv beta delta
    [bind ret throw lift try_catch get_this set_this console_log log_if_verbose
     axios_get axios_post axios_put axios_request];
  cbn -[String.append ToString original Z.eqb validateStatus encodeURIComponent
        trimSlashes trimTailingSlash Number_toString resolveProjectIdentifier
        Str.startsWith Str.replace].

Lemma validateStatus_spec (code : Z) :
  validateStatus code = true <-> 200 <= code < 300.
Proof. unfold validateStatus. rewrite andb_true_iff. lia. Qed.

Lemma validateStatus_false (code : Z) :
  validateStatus code = false <-> ~ (200 <= code < 300).
Proof.
  rewrite <- validateStatus_spec. destruct (validateStatus code); split; congruence.
Qed.

(** ** The existence checks *)

Lemma branchExists_run (w : World) (net : Network) (projectId branchName : js_value) :
  let req := get_request (this w) (branchUrl (this w) projectId branchName) in
  let out := branchExists projectId branchName net w in
  sent (snd out) = (sent w ++ [req])%list /\
  match verdict (net (sent w) req) with
  | Affirmed => fst out = Return true
  | Denied => fst out = Return false
  | Failed => exists message, fst out = Throw (GitlabApiError message)
  end.
Proof.
  destruct w as [self out reqs].
  unfold branchExists, branchUrl, get_request, verdict. run_method.
  destruct (VERBOSE self); run_method;
    (destruct (net _ _) as [res | m]; [ | split; [reflexivity | eexists; reflexivity]]);
    destruct (validateStatus (status res)) eqn:V; run_method;
    destruct (status res =? 200) eqn:E200; destruct (status res =? 404) eqn:E404;
    run_method; try (split; [reflexivity | first [reflexivity | eexists; reflexivity]]);
    apply validateStatus_false in V; apply Z.eqb_eq in E200; lia.
Qed.

Lemma fileExists_run (w : World) (net : Network) (projectId branchName : js_value)
  (filePath : string) :
  let req := get_request (this w) (fileUrl (this w) projectId branchName filePath) in
  let out := fileExists projectId branchName filePath net w in
  sent (snd out) = (sent w ++ [req])%list /\
  match verdict (net (sent w) req) with
  | Affirmed => fst out = Return true
  | Denied => fst out = Return false
  | Failed => exists message, fst out = Throw (GitlabApiError message)
  end.
Proof.
  destruct w as [self out reqs].
  unfold fileExists, fileUrl, get_request, verdict. run_method.
  destruct (VERBOSE self); run_method;
    (destruct (net _ _) as [res | m]; [ | split; [reflexivity | eexists; reflexivity]]);
    destruct (validateStatus (status res)) eqn:V; run_method;
    destruct (status res =? 200) eqn:E200; destruct (status res =? 404) eqn:E404;
    run_method; try (split; [reflexivity | first [reflexivity | eexists; reflexivity]]);
    apply validateStatus_false in V; apply Z.eqb_eq in E200; lia.
Qed.

Ltac policy_cases res :=
  repeat split; intros;
  repeat match goal with
    | H : exists _, _ |- _ => destruct H
    | H : _ /\ _ |- _ => destruct H
    | H : Reply _ = Reply _ |- _ => injection H as <-
    | H : forall r, Reply ?x = Reply r -> _ |- _ => specialize (H x eq_refl)
    end;
  try discriminate; try lia;
  try (exists res; split; [reflexivity | lia]);
  try (eexists; reflexivity).

(** The verdict decides the completion, and the policy follows. *)
Lemma verdict_policy (o : Outcome) (r : Completion bool) :
  match verdict o with
  | Affirmed => r = Return true
  | Denied => r = Return false
  | Failed => exists message, r = Throw (GitlabApiError message)
  end ->
  existence_policy o r.
Proof.
  unfold verdict, existence_policy. destruct o as [res | m].
  - destruct (status res =? 200) eqn:E200;
      [ apply Z.eqb_eq in E200
      | apply Z.eqb_neq in E200;
        destruct ((status res =? 404) || validateStatus (status res))%bool eqn:E;
        [ apply orb_true_iff in E; rewrite Z.eqb_eq, validateStatus_spec in E
        | apply orb_false_iff in E; rewrite Z.eqb_neq, validateStatus_false in E ] ];
      intros Hr; try destruct Hr as (message & Hr); subst r; policy_cases res.
  - intros (message & ->). policy_cases no_content.
Qed.

(** C1, as amended: [branchExists] sends the one request
    [GET {API_URL}/projects/{projectId}/repository/branches/{branchName}]
    and returns [true] exactly when the reply has status 200, returns
    [false] exactly when the reply has status 404 or a status in 200..299
    other than 200, and throws a [GitlabApiError] exactly in the cases
    left: any other status and no reply at all. *)
Theorem C1_branchExists_policy (w : World) (net : Network)
  (projectId branchName : js_value) :
  let address :=
    API_URL (this w) ++ "/projects/" ++ ToString projectId
    ++ "/repository/branches/" ++ ToString branchName in
  let req := {| method := GET; url := address; body := None;
                options := config (this w) |} in
  let out := branchExists projectId branchName net w in
  sent (snd out) = (sent w ++ [req])%list /\
  existence_policy (net (sent w) req) (fst out).
Proof.
  intros address req out.
  destruct (branchExists_run w net projectId branchName) as [Hsent Hverdict].
  split; [exact Hsent | apply verdict_policy; exact Hverdict].
Qed.

(** C1, as stated, fails: to a reply 204 [branchExists] answers [false],
    and 204 is not 404. *)
Lemma C1_counterexample :
  fst (branchExists (JInteger 1) (JString "main") (always (Reply no_content))
         example_world) = Return false
  /\ status no_content <> 404.
Proof. split; [reflexivity | discriminate]. Qed.

(** ** Trimming slashes *)

Lemma append_assoc (a b c : string) : (a ++ b) ++ c = a ++ (b ++ c).
Proof. induction a as [| x a IH]; cbn; [reflexivity | now rewrite IH]. Qed.

Lemma trimTailingSlash_spec (str : string) :
  (exists n, str = trimTailingSlash str ++ Str.slashes n)
  /\ Str.last (trimTailingSlash str) <> Some Str.slash.
Proof.
  induction str as [| c rest [[n IHn] IHlast]]; cbn [trimTailingSlash].
  - split; [exists O; reflexivity | discriminate].
  - destruct (trimTailingSlash rest) as [| d kept] eqn:T.
    + destruct (Ascii.eqb c Str.slash) eqn:E.
      * apply Ascii.eqb_eq in E. subst c. split; [ | discriminate].
        exists (S n). cbn. now rewrite IHn at 1.
      * apply Ascii.eqb_neq in E. split.
        -- exists n. cbn. now rewrite IHn at 1.
        -- cbn. congruence.
    + split.
      * exists n. cbn. now rewrite IHn at 1.
      * exact IHlast.
Qed.

Lemma trimLeadingSlash_spec (str : string) :
  (exists n, str = Str.slashes n ++ trimLeadingSlash str)
  /\ Str.head (trimLeadingSlash str) <> Some Str.slash.
Proof.
  induction str as [| c rest [[n IHn] IHhead]]; cbn [trimLeadingSlash].
  - split; [exists O; reflexivity | discriminate].
  - destruct (Ascii.eqb c Str.slash) eqn:E.
    + apply Ascii.eqb_eq in E. subst c. split; [ | exact IHhead].
      exists (S n). cbn. now rewrite IHn at 1.
    + apply Ascii.eqb_neq in E. split.
      * exists O. reflexivity.
      * cbn. congruence.
Qed.

Lemma last_trimLeadingSlash (str : string) :
  Str.last str <> Some Str.slash ->
  Str.last (trimLeadingSlash str) <> Some Str.slash.
Proof.
  induction str as [| c rest IH]; cbn [trimLeadingSlash]; [easy | ].
  destruct (Ascii.eqb c Str.slash) eqn:E; [ | easy].
  apply Ascii.eqb_eq in E. subst c. intros H. apply IH.
  destruct rest as [| d rest']; [discriminate | exact H].
Qed.

(** [trimSlashes] takes slashes, and nothing else, off both ends of
    [str], and leaves none at either end. *)
Lemma trimSlashes_spec (str : string) :
  (exists n m, str = Str.slashes n ++ trimSlashes str ++ Str.slashes m)
  /\ Str.head (trimSlashes str) <> Some Str.slash
  /\ Str.last (trimSlashes str) <> Some Str.slash.
Proof.
  unfold trimSlashes.
  destruct (trimTailingSlash_spec str) as [[m Hm] Hlast].
  destruct (trimLeadingSlash_spec (trimTailingSlash str)) as [[n Hn] Hhead].
  repeat split.
  - exists n, m. rewrite <- append_assoc, <- Hn. exact Hm.
  - exact Hhead.
  - apply last_trimLeadingSlash, Hlast.
Qed.

(** C7, as amended: [fileExists] sends the one request
    [GET {API_URL}/projects/{projectId}/repository/files/{encodedFilePath}?ref={branchName}],
    the encoded file path being the percent-encoding of [filePath]
    without the slashes at its two ends, and answers as [branchExists]
    does: [true] exactly for a reply 200, [false] exactly for a reply
    404 or a status in 200..299 other than 200, a [GitlabApiError] in
    every other case. *)
Theorem C7_fileExists_policy (w : World) (net : Network)
  (projectId branchName : js_value) (filePath : string) :
  let trimmed := trimSlashes filePath in
  let address :=
    API_URL (this w) ++ "/projects/" ++ ToString projectId
    ++ "/repository/files/" ++ encodeURIComponent trimmed
    ++ "?ref=" ++ ToString branchName in
  let req := {| method := GET; url := address; body := None;
                options := config (this w) |} in
  let out := fileExists projectId branchName filePath net w in
  ((exists n m, filePath = Str.slashes n ++ trimmed ++ Str.slashes m)
   /\ Str.head trimmed <> Some Str.slash
   /\ Str.last trimmed <> Some Str.slash) /\
  sent (snd out) = (sent w ++ [req])%list /\
  existence_policy (net (sent w) req) (fst out).
Proof.
  intros trimmed address req out.
  destruct (fileExists_run w net projectId branchName filePath) as [Hsent Hverdict].
  split; [apply trimSlashes_spec | ].
  split; [exact Hsent | apply verdict_policy; exact Hverdict].
Qed.

(** C7, as stated, fails: to a reply 204 [fileExists] answers [false],
    and 204 is not 404. *)
Lemma C7_counterexample :
  fst (fileExists (JInteger 1) (JString "main") "/docs/README.md"
         (always (Reply no_content)) example_world) = Return false
  /\ status no_content <> 404.
Proof. split; [reflexivity | discriminate]. Qed.

(** ** The commit methods *)

Lemma commit_verdict_policy (o : Outcome) (r : Completion bool) :
  match commit_verdict o with
  | Affirmed => r = Return true
  | Denied => r = Return false
  | Failed => exists message, r = Throw (GitlabApiError message)
  end ->
  commit_policy o r.
Proof.
  unfold commit_verdict, commit_policy. destruct o as [res | m].
  - destruct (status res =? 201) eqn:E201;
      [ apply Z.eqb_eq in E201
      | apply Z.eqb_neq in E201;
        destruct (validateStatus (status res)) eqn:V;
        [ apply validateStatus_spec in V | apply validateStatus_false in V ] ];
      intros Hr; try destruct Hr as (message & Hr); subst r; policy_cases res.
  - intros (message & ->). policy_cases no_content.
Qed.

Ltac commit_run self net :=
  run_method;
  destruct (VERBOSE self); run_method;
    (destruct (net _ _) as [res | m]; [ | split; [reflexivity | eexists; reflexivity]]);
    destruct (validateStatus (status res)) eqn:V; run_method;
    destruct (status res =? 201) eqn:E201;
    run_method; try (split; [reflexivity | first [reflexivity | eexists; reflexivity]]);
    apply validateStatus_false in V; apply Z.eqb_eq in E201; lia.

(** C2: [postCommit] sends the one request
    [POST {API_URL}/projects/{projectId}/repository/commits] with the
    payload as its body and the content type [application/json]; it
    returns [true] exactly when the reply has status 201, [false] exactly
    when the reply has another status in 200..299 (200, say), and throws
    a [GitlabApiError] exactly when the reply has a status outside
    200..299 (500, say) or no reply arrives. *)
Theorem C2_postCommit_contract (w : World) (net : Network)
  (projectId commitObject : js_value) :
  let address :=
    API_URL (this w) ++ "/projects/" ++ ToString projectId
    ++ "/repository/commits" in
  let req := {| method := POST; url := address; body := Some commitObject;
                options := {| headers := [("PRIVATE-TOKEN", AT (this w));
                                          ("Content-Type", "application/json")] |} |} in
  let out := postCommit projectId commitObject net w in
  sent (snd out) = (sent w ++ [req])%list /\
  commit_policy (net (sent w) req) (fst out).
Proof.
  intros address req out.
  cut (sent (snd out) = (sent w ++ [req])%list /\
       match commit_verdict (net (sent w) req) with
       | Affirmed => fst out = Return true
       | Denied => fst out = Return false
       | Failed => exists message, fst out = Throw (GitlabApiError message)
       end).
  { intros [Hsent Hverdict]. split; [exact Hsent | now apply commit_verdict_policy]. }
  subst out req address. destruct w as [self lines reqs].
  unfold postCommit, json_config, commit_verdict. commit_run self net.
Qed.

(** C8: [postSnippetCommit] sends the one request
    [PUT {API_URL}/snippets/{snippetId}] with the payload as its body
    and the content type [application/json], and keeps the contract of
    [postCommit]: [true] exactly for a reply 201, [false] exactly for
    another status in 200..299, a [GitlabApiError] exactly for a status
    outside 200..299 or no reply. *)
Theorem C8_postSnippetCommit_contract (w : World) (net : Network)
  (snippetId commitObject : js_value) :
  let address := API_URL (this w) ++ "/snippets/" ++ ToString snippetId in
  let req := {| method := PUT; url := address; body := Some commitObject;
                options := {| headers := [("PRIVATE-TOKEN", AT (this w));
                                          ("Content-Type", "application/json")] |} |} in
  let out := postSnippetCommit snippetId commitObject net w in
  sent (snd out) = (sent w ++ [req])%list /\
  commit_policy (net (sent w) req) (fst out).
Proof.
  intros address req out.
  cut (sent (snd out) = (sent w ++ [req])%list /\
       match commit_verdict (net (sent w) req) with
       | Affirmed => fst out = Return true
       | Denied => fst out = Return false
       | Failed => exists message, fst out = Throw (GitlabApiError message)
       end).
  { intros [Hsent Hverdict]. split; [exact Hsent | now apply commit_verdict_policy]. }
  subst out req address. destruct w as [self lines reqs].
  unfold postSnippetCommit, json_config, commit_verdict. commit_run self net.
Qed.

(** ** Construction *)

(** The constructor, in closed form: nothing of the object it starts
    from is left. *)
Lemma constructor_run (baseUrl accessToken : string) (verbose : bool)
  (net : Network) (w : World) :
  let trimmed := trimTailingSlash baseUrl in
  let secure :=
    if Str.startsWith trimmed "http://"
    then Str.replace trimmed "http://" "https://"
    else trimmed in
  let base :=
    if negb (Str.startsWith secure "https://") then "https://" ++ secure else secure in
  constructor baseUrl accessToken verbose net w =
  (Return tt,
   {| this := {| VERBOSE := verbose; BASE_URL := base; API_URL := base ++ API_PATH;
                 AT := accessToken;
                 config := {| headers := [("PRIVATE-TOKEN", accessToken)] |} |};
      console := console w;
      sent := sent w |}).
Proof.
  destruct w as [self lines reqs]. unfold constructor, set_VERBOSE, set_BASE_URL,
    set_API_URL, set_AT, set_config. run_method.
  destruct (Str.startsWith (trimTailingSlash baseUrl) "http://"); run_method;
    match goal with
    | |- context [negb (Str.startsWith ?u "https://")] =>
        destruct (Str.startsWith u "https://")
    end; reflexivity.
Qed.

Lemma replace_prefix (s pat by_ : string) :
  String.prefix pat s = true ->
  Str.replace s pat by_ = by_ ++ Str.slice (String.length pat) s.
Proof. intros H. destruct s; cbn [Str.replace]; now rewrite H. Qed.

Lemma prefix_append (p s : string) : String.prefix p (p ++ s) = true.
Proof.
  induction p as [| a p IH]; cbn.
  - now destruct s.
  - destruct (ascii_dec a a); [exact IH | contradiction].
Qed.

Lemma prefix_split (p s : string) :
  String.prefix p s = true -> exists rest, s = p ++ rest.
Proof.
  revert s. induction p as [| a p IH]; intros s H.
  - exists s. reflexivity.
  - destruct s as [| b s]; [discriminate H | ]. cbn in H.
    destruct (ascii_dec a b) as [<- | _]; [ | discriminate H].
    destruct (IH s H) as [rest ->]. exists rest. reflexivity.
Qed.

(** The base URL of a constructed driver starts with [https://]. *)
Lemma BASE_URL_secure (baseUrl accessToken : string) (verbose : bool) :
  exists rest,
    BASE_URL (new_GitlabApiDriver baseUrl accessToken verbose) = "https://" ++ rest.
Proof.
  unfold new_GitlabApiDriver. rewrite constructor_run. cbn [snd this BASE_URL].
  destruct (Str.startsWith (trimTailingSlash baseUrl) "http://") eqn:Hhttp.
  - unfold Str.startsWith in *. rewrite (replace_prefix _ _ _ Hhttp).
    rewrite prefix_append. cbn [negb]. eexists. reflexivity.
  - destruct (Str.startsWith (trimTailingSlash baseUrl) "https://") eqn:Hhttps;
      cbn [negb].
    + apply prefix_split. exact Hhttps.
    + eexists. reflexivity.
Qed.

(** C3: from the base URL ["http://example.com/"] the constructor makes
    ["https://example.com"], from ["example.com"] it makes
    ["https://example.com"] too, and the API root of every driver is its
    base URL followed by ["/api/v4"]. *)
Theorem C3_base_url_normalization (accessToken : string) (verbose : bool) :
  BASE_URL (new_GitlabApiDriver "http://example.com/" accessToken verbose)
    = "https://example.com"
  /\ BASE_URL (new_GitlabApiDriver "example.com" accessToken verbose)
    = "https://example.com"
  /\ (forall baseUrl : string,
        API_URL (new_GitlabApiDriver baseUrl accessToken verbose)
        = BASE_URL (new_GitlabApiDriver baseUrl accessToken verbose) ++ "/api/v4").
Proof.
  repeat split.
  intros baseUrl. unfold new_GitlabApiDriver. rewrite constructor_run. reflexivity.
Qed.

(** ** Project addresses *)

Lemma getProjectUrl_run (identifier : js_value) (net : Network) (w : World) :
  let resolved := resolveProjectIdentifier (BASE_URL (this w)) identifier in
  getProjectUrl identifier net w =
  (match id resolved, path resolved with
   | Some n, _ =>
       Return (API_URL (this w) ++ "/projects/" ++ Number_toString n)
   | None, Some p =>
       Return (API_URL (this w) ++ "/projects/" ++ encodeURIComponent (trimSlashes p))
   | None, None =>
       Throw (Error ("'" ++ ToString identifier
                     ++ "' is an invalid identifier for a project"))
   end, w).
Proof.
  destruct w as [self lines reqs]. unfold getProjectUrl. run_method.
  destruct (id _); [reflexivity | ]. destruct (path _); reflexivity.
Qed.

(** C4: [getProjectUrl] returns [{API_URL}/projects/{id}] when the
    identifier resolves to a numeric id, [{API_URL}/projects/] followed
    by the percent-encoding of the slash-trimmed path when it resolves
    to a path, and throws the plain [Error] of an invalid identifier
    otherwise, the world left as it was.  For the identifier [42] this
    is [{API_URL}/projects/42]; for the identifier ["a/b c"], on a
    constructed driver, it is [{API_URL}/projects/] followed by the
    percent-encoding of ["a/b c"], which is ["a%2Fb%20c"]. *)
Theorem C4_getProjectUrl (identifier : js_value) (net : Network) (w : World) :
  (let resolved := resolveProjectIdentifier (BASE_URL (this w)) identifier in
   getProjectUrl identifier net w =
   (match id resolved, path resolved with
    | Some n, _ =>
        Return (API_URL (this w) ++ "/projects/" ++ Number_toString n)
    | None, Some p =>
        Return (API_URL (this w) ++ "/projects/" ++ encodeURIComponent (trimSlashes p))
    | None, None =>
        Throw (Error ("'" ++ ToString identifier
                      ++ "' is an invalid identifier for a project"))
    end, w))
  /\ getProjectUrl (JInteger 42) net w
     = (Return (API_URL (this w) ++ "/projects/42"), w)
  /\ (forall (baseUrl accessToken : string) (verbose : bool),
        let driver := new_GitlabApiDriver baseUrl accessToken verbose in
        let here := {| this := driver; console := console w; sent := sent w |} in
        getProjectUrl (JString "a/b c") net here
        = (Return (API_URL driver ++ "/projects/" ++ encodeURIComponent "a/b c"), here)
        /\ encodeURIComponent "a/b c" = "a%2Fb%20c").
Proof.
  split; [apply getProjectUrl_run | ]. split; [apply getProjectUrl_run | ].
  intros baseUrl accessToken verbose driver here.
  split; [ | reflexivity].
  rewrite getProjectUrl_run. subst here. cbn [this].
  destruct (BASE_URL_secure baseUrl accessToken verbose) as [rest Hbase].
  fold driver in Hbase. rewrite Hbase. reflexivity.
Qed.

Lemma getProjectUrl_invalid (identifier : js_value) (net : Network) (w : World) :
  id (resolveProjectIdentifier (BASE_URL (this w)) identifier) = None ->
  path (resolveProjectIdentifier (BASE_URL (this w)) identifier) = None ->
  getProjectUrl identifier net w = (Throw (invalid_identifier identifier), w).
Proof.
  intros Hid Hpath. rewrite getProjectUrl_run. cbv zeta. now rewrite Hid, Hpath.
Qed.

(** C6: for an identifier that resolves neither to an id nor to a
    path, [getProjectUrl], [getProject], [getBranches] and [getRawFile]
    (whatever the file path and the branch name) throw the plain [Error]
    of an invalid identifier, which is not a [GitlabApiError], and leave
    the world as it was: no request has been sent. *)
Theorem C6_invalid_identifier (identifier : js_value) (filePath : string)
  (branchName : js_value) (net : Network) (w : World) :
  id (resolveProjectIdentifier (BASE_URL (this w)) identifier) = None ->
  path (resolveProjectIdentifier (BASE_URL (this w)) identifier) = None ->
  getProjectUrl identifier net w = (Throw (invalid_identifier identifier), w)
  /\ getProject identifier net w = (Throw (invalid_identifier identifier), w)
  /\ getBranches identifier net w = (Throw (invalid_identifier identifier), w)
  /\ getRawFile identifier filePath branchName net w
     = (Throw (invalid_identifier identifier), w)
  /\ (forall message, invalid_identifier identifier <> GitlabApiError message).
Proof.
  intros Hid Hpath.
  pose proof (getProjectUrl_invalid identifier net w Hid Hpath) as Hurl.
  assert (Hproject : getProject identifier net w
                     = (Throw (invalid_identifier identifier), w)).
  { unfold getProject, bind at 1. now rewrite Hurl. }
  repeat split.
  - exact Hurl.
  - exact Hproject.
  - unfold getBranches, bind at 1. now rewrite Hurl.
  - unfold getRawFile.
    destruct branchName; unfold bind at 1;
      try (unfold bind at 1; rewrite Hproject; reflexivity);
      unfold ret at 1; unfold bind at 1; now rewrite Hurl.
  - discriminate.
Qed.

Lemma C6_witness :
  getProjectUrl JUndefined offline example_world
    = (Throw (invalid_identifier JUndefined), example_world)
  /\ getProject JUndefined offline example_world
    = (Throw (invalid_identifier JUndefined), example_world)
  /\ getBranches JUndefined offline example_world
    = (Throw (invalid_identifier JUndefined), example_world)
  /\ getRawFile JUndefined "README.md" JUndefined offline example_world
    = (Throw (invalid_identifier JUndefined), example_world)
  /\ (forall message, invalid_identifier JUndefined <> GitlabApiError message).
Proof.
  apply (C6_invalid_identifier JUndefined "README.md" JUndefined offline example_world);
    reflexivity.
Defined.

(** ** Raw files *)

Lemma getProject_run (identifier : js_value) (net : Network) (w : World)
  (projectUrl : string) :
  getProjectUrl identifier net w = (Return projectUrl, w) ->
  let req := get_request (this w) projectUrl in
  let w' := {| this := this w;
               console := logged w ("GET > " ++ projectUrl);
               sent := (sent w ++ [req])%list |} in
  getProject identifier net w =
  (match net (sent w) req with
   | Reply res =>
       if validateStatus (status res) then Return (data res)
       else Throw (GitlabApiError
                     ("Error requesting project identified by '"
                      ++ ToString identifier ++ "'"
                      ++ original (AxiosError (Some res)
                                     ("Request failed with status code "
                                      ++ Number_toString (status res)))))
   | NoReply message =>
       Throw (GitlabApiError
                ("Error requesting project identified by '"
                 ++ ToString identifier ++ "'"
                 ++ original (AxiosError None message)))
   end, w').
Proof.
  intros Hurl. unfold getProject, bind at 1. rewrite Hurl.
  destruct w as [self lines reqs]. unfold get_request, logged. run_method.
  destruct (VERBOSE self); run_method;
    (destruct (net _ _) as [res | m]; [ | reflexivity]);
    destruct (validateStatus (status res)); reflexivity.
Qed.

(** The address of a project does not depend on the console or on the
    requests sent before. *)
Lemma getProjectUrl_frame (identifier : js_value) (net : Network) (w w' : World)
  (c : Completion string) :
  this w' = this w ->
  getProjectUrl identifier net w = (c, w) ->
  getProjectUrl identifier net w' = (c, w').
Proof.
  intros Hthis. rewrite !getProjectUrl_run, Hthis. cbv zeta.
  intros H. apply (f_equal fst) in H. cbn [fst] in H. now rewrite H.
Qed.

Lemma raw_fetch_run (address filePath : string) (branchName projectIdentifier : js_value)
  (net : Network) (w : World) :
  let req := get_request (this w) address in
  let out :=
    (try (log_if_verbose ("GET > " ++ address) ;;
          self <- get_this ;;
          res <- axios_get address (config self) ;;
          if status res =? 200 then ret (data res) else ret JUndefined)
     catch e =>
       throw (GitlabApiError ("Error requesting raw file '" ++ filePath
                              ++ "' from branch '" ++ ToString branchName
                              ++ "' for project identified by '"
                              ++ ToString projectIdentifier ++ "'" ++ original e)))
      net w in
  sent (snd out) = (sent w ++ [req])%list
  /\ this (snd out) = this w
  /\ raw_file_policy (net (sent w) req) (fst out).
Proof.
  destruct w as [self lines reqs]. unfold get_request, raw_file_policy. run_method.
  destruct (VERBOSE self); run_method;
    (destruct (net _ _) as [res | m]; [ | policy_cases no_content]);
    destruct (validateStatus (status res)) eqn:V;
    [ apply validateStatus_spec in V | apply validateStatus_false in V
    | apply validateStatus_spec in V | apply validateStatus_false in V ];
    run_method;
    try (destruct (status res =? 200) eqn:E200;
         [ apply Z.eqb_eq in E200 | apply Z.eqb_neq in E200 ]);
    run_method; policy_cases res.
Qed.

(** C5, as amended: when the identifier resolves to the address
    [projectUrl] and the request for the project is answered with a
    status in 200..299 and a body whose [default_branch] can be read,
    [getRawFile] with the branch name left out sends exactly two
    requests, [GET {projectUrl}] first and then
    [GET {projectUrl}/repository/files/{encodedFilePath}/raw?ref={default_branch}];
    it returns the body of the second reply when its status is 200,
    [undefined] when it is another status in 200..299, and throws a
    [GitlabApiError] exactly when the second request fails. *)
Theorem C5_getRawFile_default_branch (identifier : js_value) (filePath : string)
  (net : Network) (w : World) (projectUrl : string) (project : Response)
  (branch : js_value) :
  let first := get_request (this w) projectUrl in
  let second := get_request (this w) (rawFileUrl projectUrl filePath branch) in
  let out := getRawFile identifier filePath JUndefined net w in
  getProjectUrl identifier net w = (Return projectUrl, w) ->
  net (sent w) first = Reply project ->
  200 <= status project < 300 ->
  default_branch (data project) = Return branch ->
  sent (snd out) = (sent w ++ [first; second])%list
  /\ raw_file_policy (net (sent w ++ [first])%list second) (fst out).
Proof.
  intros first second out Hurl Hnet Hok Hbranch.
  apply validateStatus_spec in Hok.
  pose proof (getProject_run identifier net w projectUrl Hurl) as Hproject.
  cbv zeta in Hproject. fold first in Hproject. rewrite Hnet, Hok in Hproject.
  set (w1 := {| this := this w; console := logged w ("GET > " ++ projectUrl);
                sent := (sent w ++ [first])%list |}) in *.
  assert (Hurl1 : getProjectUrl identifier net w1 = (Return projectUrl, w1))
    by (apply (getProjectUrl_frame identifier net w w1); [reflexivity | exact Hurl]).
  destruct (raw_fetch_run (rawFileUrl projectUrl filePath branch) filePath branch
              identifier net w1) as (Hsent & _ & Hpolicy).
  cbv zeta in Hsent, Hpolicy.
  match type of Hsent with
  | sent (snd ?fetch) = _ =>
      assert (Hrun : getRawFile identifier filePath JUndefined net w = fetch)
  end.
  { unfold getRawFile. unfold bind at 1. unfold bind at 1.
    rewrite Hproject. unfold lift. rewrite Hbranch.
    unfold bind at 1. rewrite Hurl1. reflexivity. }
  subst out. rewrite Hrun. split.
  - rewrite Hsent. subst w1 first second. cbn [sent this].
    rewrite <- app_assoc. reflexivity.
  - exact Hpolicy.
Qed.

Lemma C5_witness :
  let w := example_world in
  let projectUrl := API_URL example_driver ++ "/projects/group%2Fproj" in
  let first := get_request example_driver projectUrl in
  let second :=
    get_request example_driver
      (projectUrl ++ "/repository/files/README.md/raw?ref=main") in
  let out := getRawFile (JString "group/proj") "/README.md" JUndefined example_gitlab w in
  sent (snd out) = [first; second]
  /\ raw_file_policy (example_gitlab [first] second) (fst out).
Proof.
  apply (C5_getRawFile_default_branch (JString "group/proj") "/README.md"
           example_gitlab example_world
           (API_URL example_driver ++ "/projects/group%2Fproj")
           {| status := 200; data := example_project |} (JString "main"));
    [ reflexivity | reflexivity | cbn; lia | reflexivity ].
Defined.

(** C5, as stated, fails: for an identifier that does not resolve no
    request is sent at all; when the project is not found the request
    for the project is the only one; and so it is when the project comes
    back with a body [null], of which no [default_branch] can be read. *)
Lemma C5_counterexample :
  sent (snd (getRawFile JUndefined "README.md" JUndefined example_gitlab example_world))
    = []
  /\ length (sent (snd (getRawFile (JString "group/proj") "README.md" JUndefined
                          (always (Reply not_found)) example_world))) = 1%nat
  /\ length (sent (snd (getRawFile (JString "group/proj") "README.md" JUndefined
                          (always (Reply {| status := 200; data := JNull |}))
                          example_world))) = 1%nat.
Proof. repeat split. Qed.

(** ** The driver object after construction *)

Section Frame.

Context {A B : Type}.

Lemma keeps_ret (a : A) : keeps_this (ret a).
Proof. intros net w. reflexivity. Qed.

Lemma keeps_throw (e : Thrown) : keeps_this (@throw A e).
Proof. intros net w. reflexivity. Qed.

Lemma keeps_lift (c : Completion A) : keeps_this (lift c).
Proof. intros net w. reflexivity. Qed.

Lemma keeps_bind (m : M A) (k : A -> M B) :
  keeps_this m -> (forall a, keeps_this (k a)) -> keeps_this (bind m k).
Proof.
  intros Hm Hk net w. unfold bind. specialize (Hm net w).
  destruct (m net w) as [[a | e] w']; cbn [snd] in *.
  - rewrite (Hk a net w'). exact Hm.
  - exact Hm.
Qed.

Lemma keeps_try_catch (body : M A) (handler : Thrown -> M A) :
  keeps_this body -> (forall e, keeps_this (handler e)) ->
  keeps_this (try_catch body handler).
Proof.
  intros Hbody Hhandler net w. unfold try_catch. specialize (Hbody net w).
  destruct (body net w) as [[a | e] w']; cbn [snd] in *.
  - exact Hbody.
  - rewrite (Hhandler e net w'). exact Hbody.
Qed.

End Frame.

Lemma keeps_get_this : keeps_this get_this.
Proof. intros net w. reflexivity. Qed.

Lemma keeps_console_log (line : string) : keeps_this (console_log line).
Proof. intros net w. reflexivity. Qed.

Lemma keeps_axios_request (req : Request) : keeps_this (axios_request req).
Proof.
  intros net w. unfold axios_request.
  destruct (net (sent w) req) as [res | message]; [ | reflexivity].
  destruct (validateStatus (status res)); reflexivity.
Qed.

Create HintDb frame discriminated.

#[local] Hint Resolve keeps_ret keeps_throw keeps_lift keeps_get_this
  keeps_console_log keeps_axios_request : frame.

Ltac frame :=
  repeat first
    [ solve [ auto with frame ]
    | progress cbv zeta
    | apply keeps_bind; [ | intro ]
    | apply keeps_try_catch; [ | intro ]
    | match goal with
      | |- keeps_this (match ?x with _ => _ end) => destruct x
      end ].

Lemma keeps_log_if_verbose (line : string) : keeps_this (log_if_verbose line).
Proof. unfold log_if_verbose. frame. Qed.

Lemma keeps_axios_get (address : string) (c : RequestConfig) :
  keeps_this (axios_get address c).
Proof. apply keeps_axios_request. Qed.

Lemma keeps_axios_post (address : string) (payload : js_value) (c : RequestConfig) :
  keeps_this (axios_post address payload c).
Proof. apply keeps_axios_request. Qed.

Lemma keeps_axios_put (address : string) (payload : js_value) (c : RequestConfig) :
  keeps_this (axios_put address payload c).
Proof. apply keeps_axios_request. Qed.

#[local] Hint Resolve keeps_log_if_verbose keeps_axios_get keeps_axios_post
  keeps_axios_put : frame.

Lemma keeps_getProjectUrl (identifier : js_value) :
  keeps_this (getProjectUrl identifier).
Proof. unfold getProjectUrl. frame. Qed.

#[local] Hint Resolve keeps_getProjectUrl : frame.

Lemma keeps_getProject (identifier : js_value) : keeps_this (getProject identifier).
Proof. unfold getProject. frame. Qed.

#[local] Hint Resolve keeps_getProject : frame.

(** An assignment does change the object: the frame property below is
    a property of the methods, not of the monad. *)
Lemma set_this_changes :
  this (snd (set_BASE_URL "https://gitlab.example" offline example_world))
  <> this example_world.
Proof. discriminate. Qed.

(** C9: no method of the driver changes the driver object: base URL,
    API root, access token, request configuration and verbose flag are
    after the call what they were before it, whatever the arguments,
    whatever the remote end answers and whether the call returns or
    throws. *)
Theorem C9_configuration_immutable :
  (forall identifier, keeps_this (getProjectUrl identifier))
  /\ (forall identifier, keeps_this (getProject identifier))
  /\ (forall projectIdentifier, keeps_this (getBranches projectIdentifier))
  /\ (forall projectId branchName, keeps_this (branchExists projectId branchName))
  /\ (forall projectId branchName filePath,
        keeps_this (fileExists projectId branchName filePath))
  /\ (forall projectId commitObject, keeps_this (postCommit projectId commitObject))
  /\ (forall snippetId commitObject,
        keeps_this (postSnippetCommit snippetId commitObject))
  /\ (forall projectIdentifier filePath branchName,
        keeps_this (getRawFile projectIdentifier filePath branchName))
  /\ keeps_this getVersion.
Proof.
  repeat split; intros.
  - apply keeps_getProjectUrl.
  - apply keeps_getProject.
  - unfold getBranches. frame.
  - unfold branchExists. frame.
  - unfold fileExists. frame.
  - unfold postCommit. frame.
  - unfold postSnippetCommit. frame.
  - unfold getRawFile. frame.
  - unfold getVersion. frame.
Qed.

(** ** Branch names in addresses *)

Lemma In_append_r (c : ascii) (before s : string) :
  Str.In c s -> Str.In c (before ++ s).
Proof.
  intros H. induction before as [| d before IH]; cbn; [exact H | right; exact IH].
Qed.

Lemma getRawFile_branch_given_sent (identifier : js_value) (filePath b : string)
  (net : Network) (w : World) :
  match fst (getProjectUrl identifier net w) with
  | Return projectUrl =>
      sent (snd (getRawFile identifier filePath (JString b) net w))
      = (sent w ++ [get_request (this w) (rawFileUrl projectUrl filePath (JString b))])%list
  | Throw _ =>
      sent (snd (getRawFile identifier filePath (JString b) net w)) = sent w
  end.
Proof.
  pose proof (getProjectUrl_run identifier net w) as Hurl. cbv zeta in Hurl.
  match type of Hurl with
  | _ = (?c, _) => destruct c as [projectUrl | e]
  end; rewrite Hurl; cbn [fst];
    unfold getRawFile; unfold bind at 1; unfold ret at 1; unfold bind at 1;
    rewrite Hurl; [ | reflexivity].
  destruct (raw_fetch_run (rawFileUrl projectUrl filePath (JString b)) filePath
              (JString b) identifier net w) as (Hsent & _ & _).
  exact Hsent.
Qed.

(** C10, as amended: the percent-encoded parts of the addresses are the
    file path and the path of a project identifier; the branch name is
    not encoded.  The address [branchExists] asks ends with the branch
    name as it was given, and so does the [ref] parameter of the
    addresses [fileExists] and [getRawFile] ask: every character of the
    branch name, reserved or not, stands in the address as it is. *)
Theorem C10_branch_name_verbatim (projectId identifier : js_value)
  (filePath b : string) (net : Network) (w : World) :
  let self := this w in
  let branchAddress :=
    (API_URL self ++ "/projects/" ++ ToString projectId ++ "/repository/branches/")
    ++ b in
  let fileAddress :=
    (API_URL self ++ "/projects/" ++ ToString projectId ++ "/repository/files/"
     ++ encodeURIComponent (trimSlashes filePath) ++ "?ref=") ++ b in
  let rawAddress := fun projectUrl : string =>
    (projectUrl ++ "/repository/files/"
     ++ encodeURIComponent (trimSlashes filePath) ++ "/raw?ref=") ++ b in
  sent (snd (branchExists projectId (JString b) net w))
    = (sent w ++ [get_request self branchAddress])%list
  /\ sent (snd (fileExists projectId (JString b) filePath net w))
    = (sent w ++ [get_request self fileAddress])%list
  /\ match fst (getProjectUrl identifier net w) with
     | Return projectUrl =>
         sent (snd (getRawFile identifier filePath (JString b) net w))
         = (sent w ++ [get_request self (rawAddress projectUrl)])%list
     | Throw _ =>
         sent (snd (getRawFile identifier filePath (JString b) net w)) = sent w
     end
  /\ (forall c : ascii,
        Str.In c b ->
        Str.In c branchAddress /\ Str.In c fileAddress
        /\ forall projectUrl, Str.In c (rawAddress projectUrl)).
Proof.
  intros self branchAddress fileAddress rawAddress.
  assert (Hbranch : branchAddress = branchUrl self projectId (JString b)).
  { subst branchAddress. unfold branchUrl. cbn [ToString].
    rewrite !append_assoc. reflexivity. }
  assert (Hfile : fileAddress = fileUrl self projectId (JString b) filePath).
  { subst fileAddress. unfold fileUrl. cbn [ToString].
    rewrite !append_assoc. reflexivity. }
  assert (Hraw : forall projectUrl,
             rawAddress projectUrl = rawFileUrl projectUrl filePath (JString b)).
  { intros projectUrl. subst rawAddress. unfold rawFileUrl. cbn [ToString].
    rewrite !append_assoc. reflexivity. }
  repeat split.
  - rewrite Hbranch. apply branchExists_run.
  - rewrite Hfile. apply fileExists_run.
  - pose proof (getRawFile_branch_given_sent identifier filePath b net w) as H.
    destruct (fst (getProjectUrl identifier net w)) as [projectUrl | e];
      [rewrite Hraw | ]; exact H.
  - apply In_append_r. assumption.
  - apply In_append_r. assumption.
  - intros projectUrl. subst rawAddress. cbv beta. apply In_append_r. assumption.
Qed.

(** C10, as stated, fails: the path of a project identifier is
    percent-encoded too.  The address of the project ["group/proj"]
    holds [%2F] where the identifier has a slash. *)
Lemma C10_counterexample :
  getProjectUrl (JString "group/proj") offline example_world
  = (Return "https://example.com/api/v4/projects/group%2Fproj", example_world)
  /\ map url (sent (snd (getRawFile (JString "group/proj") "README.md" (JString "main")
                           example_gitlab example_world)))
     = ["https://example.com/api/v4/projects/group%2Fproj/repository/files/README.md/raw?ref=main"].
Proof. repeat split. Qed.

Example branch_with_reserved_characters :
  map url (sent (snd (branchExists (JInteger 7) (JString "feature/x#1?y")
                        (always (Reply not_found)) example_world)))
  = ["https://example.com/api/v4/projects/7/repository/branches/feature/x#1?y"].
Proof. reflexivity. Qed.

(** ** Evaluations *)

Example trimSlashes_both_ends : trimSlashes "//group/proj/" = "group/proj".
Proof. reflexivity. Qed.

Example encodeURIComponent_reserved :
  encodeURIComponent "docs/read me.md" = "docs%2Fread%20me.md".
Proof. reflexivity. Qed.

Example replace_first_occurrence :
  Str.replace "xhttp://a http://b" "http://" "https://" = "xhttps://a http://b".
Proof. reflexivity. Qed.

Example resolve_project_address :
  resolveProjectIdentifier "https://example.com"
    (JString "https://example.com/group/proj/")
  = {| id := None; path := Some "group/proj" |}.
Proof. reflexivity. Qed.

Example resolve_digits :
  resolveProjectIdentifier "https://example.com" (JString "42")
  = {| id := Some 42; path := None |}.
Proof. reflexivity. Qed.

Example postCommit_created :
  fst (postCommit (JInteger 7) (JObject [("branch", JString "main")])
         (always (Reply {| status := 201; data := JNull |})) example_world)
  = Return true.
Proof. reflexivity. Qed.

Example postCommit_ok_is_false :
  fst (postCommit (JInteger 7) (JObject [("branch", JString "main")])
         (always (Reply {| status := 200; data := JNull |})) example_world)
  = Return false.
Proof. reflexivity. Qed.

Example postCommit_server_error :
  fst (postCommit (JInteger 7) (JObject [("branch", JString "main")])
         (always (Reply {| status := 500; data := JNull |})) example_world)
  = Throw (GitlabApiError
             ("Error executing commit on project ID '7'" ++ Str.LF ++ Str.LF
              ++ "Original Error:" ++ Str.LF
              ++ "AxiosError: Request failed with status code 500")).
Proof. reflexivity. Qed.

Example postCommit_offline :
  fst (postCommit (JInteger 7) (JObject [("branch", JString "main")])
         offline example_world)
  = Throw (GitlabApiError
             ("Error executing commit on project ID '7'" ++ Str.LF ++ Str.LF
              ++ "Original Error:" ++ Str.LF ++ "AxiosError: offline")).
Proof. reflexivity. Qed.

Example getRawFile_two_requests :
  map url (sent (snd (getRawFile (JString "group/proj") "/README.md" JUndefined
                        example_gitlab example_world)))
  = ["https://example.com/api/v4/projects/group%2Fproj";
     "https://example.com/api/v4/projects/group%2Fproj/repository/files/README.md/raw?ref=main"].
Proof. reflexivity. Qed.

(** * Further properties of the driver *)

(** ** The methods that fetch a body *)

(** X1: [getVersion] sends the one request [GET {API_URL}/version] with
    the configuration of the driver; it returns the body of a reply 200,
    [null] for a reply with another status in 200..299, and throws a
    [GitlabApiError] exactly when the status is outside 200..299 or no
    reply arrives. *)
Theorem X1_getVersion_contract (w : World) (net : Network) :
  let req := {| method := GET; url := API_URL (this w) ++ "/version";
                body := None; options := config (this w) |} in
  let out := getVersion net w in
  sent (snd out) = (sent w ++ [req])%list
  /\ version_policy (net (sent w) req) (fst out).
Proof.
  destruct w as [self lines reqs]. unfold getVersion, version_policy. run_method.
  destruct (VERBOSE self); run_method;
    (destruct (net _ _) as [res | m]; [ | policy_cases no_content]);
    destruct (validateStatus (status res)) eqn:V;
    [ apply validateStatus_spec in V | apply validateStatus_false in V
    | apply validateStatus_spec in V | apply validateStatus_false in V ];
    run_method;
    try (destruct (status res =? 200) eqn:E200;
         [ apply Z.eqb_eq in E200 | apply Z.eqb_neq in E200 ]);
    run_method; policy_cases res.
Qed.

Lemma body_policy_of_run (o : Outcome) (r : Completion js_value)
  (describe : Thrown -> string) :
  r = match o with
      | Reply res =>
          if validateStatus (status res) then Return (data res)
          else Throw (GitlabApiError
                        (describe (AxiosError (Some res)
                                     ("Request failed with status code "
                                      ++ Number_toString (status res)))))
      | NoReply message => Throw (GitlabApiError (describe (AxiosError None message)))
      end ->
  body_policy o r.
Proof.
  intros ->. unfold body_policy. destruct o as [res | m]; [ | policy_cases no_content].
  destruct (validateStatus (status res)) eqn:V;
    [ apply validateStatus_spec in V | apply validateStatus_false in V ];
    policy_cases res.
Qed.

(** X2: for an identifier that resolves to the address [projectUrl],
    [getProject] sends the one request [GET {projectUrl}] with the
    configuration of the driver; it returns the body of every reply with
    a status in 200..299, whatever the status, and throws a
    [GitlabApiError] exactly when the status is outside 200..299, 404
    included, or no reply arrives. *)
Theorem X2_getProject_contract (identifier : js_value) (net : Network) (w : World)
  (projectUrl : string) :
  getProjectUrl identifier net w = (Return projectUrl, w) ->
  let req := {| method := GET; url := projectUrl; body := None;
                options := config (this w) |} in
  let out := getProject identifier net w in
  sent (snd out) = (sent w ++ [req])%list
  /\ body_policy (net (sent w) req) (fst out).
Proof.
  intros Hurl req out. subst out.
  rewrite (getProject_run identifier net w projectUrl Hurl). cbn [fst snd sent].
  split; [reflexivity | ].
  apply (body_policy_of_run _ _
           (fun e => "Error requesting project identified by '"
                     ++ ToString identifier ++ "'" ++ original e)).
  unfold get_request. subst req.
  destruct (net _ _) as [res | m]; [ | reflexivity].
  destruct (validateStatus (status res)); reflexivity.
Qed.

Lemma X2_witness :
  let req := {| method := GET;
                url := "https://example.com/api/v4/projects/group%2Fproj";
                body := None; options := config example_driver |} in
  let out := getProject (JString "group/proj") (always (Reply not_found)) example_world in
  sent (snd out) = [req]
  /\ body_policy (always (Reply not_found) [] req) (fst out).
Proof.
  apply (X2_getProject_contract (JString "group/proj") (always (Reply not_found))
           example_world "https://example.com/api/v4/projects/group%2Fproj").
  reflexivity.
Defined.

Lemma getBranches_run (projectIdentifier : js_value) (net : Network) (w : World)
  (projectUrl : string) :
  getProjectUrl projectIdentifier net w = (Return projectUrl, w) ->
  let req := get_request (this w) (projectUrl ++ "/repository/branches") in
  getBranches projectIdentifier net w =
  (match net (sent w) req with
   | Reply res =>
       if validateStatus (status res) then Return (data res)
       else Throw (GitlabApiError
                     ("Error requesting branchs for project identified by '"
                      ++ ToString projectIdentifier ++ "'"
                      ++ original (AxiosError (Some res)
                                     ("Request failed with status code "
                                      ++ Number_toString (status res)))))
   | NoReply message =>
       Throw (GitlabApiError
                ("Error requesting branchs for project identified by '"
                 ++ ToString projectIdentifier ++ "'"
                 ++ original (AxiosError None message)))
   end,
   {| this := this w;
      console := logged w ("GET > " ++ projectUrl ++ "/repository/branches");
      sent := (sent w ++ [req])%list |}).
Proof.
  intros Hurl. unfold getBranches, bind at 1. rewrite Hurl.
  destruct w as [self lines reqs]. unfold get_request, logged. run_method.
  destruct (VERBOSE self); run_method;
    (destruct (net _ _) as [res | m]; [ | reflexivity]);
    destruct (validateStatus (status res)); reflexivity.
Qed.

(** X3: for an identifier that resolves to the address [projectUrl],
    [getBranches] sends the one request
    [GET {projectUrl}/repository/branches] with the configuration of the
    driver; it returns the body of every reply with a status in
    200..299 and throws a [GitlabApiError] exactly when the status is
    outside 200..299 or no reply arrives. *)
Theorem X3_getBranches_contract (projectIdentifier : js_value) (net : Network)
  (w : World) (projectUrl : string) :
  getProjectUrl projectIdentifier net w = (Return projectUrl, w) ->
  let req := {| method := GET; url := projectUrl ++ "/repository/branches";
                body := None; options := config (this w) |} in
  let out := getBranches projectIdentifier net w in
  sent (snd out) = (sent w ++ [req])%list
  /\ body_policy (net (sent w) req) (fst out).
Proof.
  intros Hurl req out. subst out.
  rewrite (getBranches_run projectIdentifier net w projectUrl Hurl). cbn [fst snd sent].
  split; [reflexivity | ].
  apply (body_policy_of_run _ _
           (fun e => "Error requesting branchs for project identified by '"
                     ++ ToString projectIdentifier ++ "'" ++ original e)).
  unfold get_request. subst req.
  destruct (net _ _) as [res | m]; [ | reflexivity].
  destruct (validateStatus (status res)); reflexivity.
Qed.

Lemma X3_witness :
  let req := {| method := GET;
                url := "https://example.com/api/v4/projects/7/repository/branches";
                body := None; options := config example_driver |} in
  let out := getBranches (JInteger 7) example_gitlab example_world in
  sent (snd out) = [req]
  /\ body_policy (example_gitlab [] req) (fst out).
Proof.
  apply (X3_getBranches_contract (JInteger 7) example_gitlab example_world
           "https://example.com/api/v4/projects/7").
  reflexivity.
Defined.

(** ** Raw files: the branch given, and the branch that cannot be found *)

Lemma getRawFile_branch_given_run (identifier : js_value) (filePath : string)
  (branchName : js_value) (net : Network) (w : World) (projectUrl : string) :
  branchName <> JUndefined ->
  getProjectUrl identifier net w = (Return projectUrl, w) ->
  let req := get_request (this w) (rawFileUrl projectUrl filePath branchName) in
  let out := getRawFile identifier filePath branchName net w in
  sent (snd out) = (sent w ++ [req])%list
  /\ raw_file_policy (net (sent w) req) (fst out).
Proof.
  intros Hgiven Hurl req out.
  destruct (raw_fetch_run (rawFileUrl projectUrl filePath branchName) filePath
              branchName identifier net w) as (Hsent & _ & Hpolicy).
  cbv zeta in Hsent, Hpolicy.
  match type of Hsent with
  | sent (snd ?fetch) = _ =>
      assert (Hrun : getRawFile identifier filePath branchName net w = fetch)
  end.
  { unfold getRawFile.
    destruct branchName; try contradiction;
      unfold bind at 1; unfold ret at 1; unfold bind at 1; rewrite Hurl; reflexivity. }
  subst out. rewrite Hrun. split; [exact Hsent | exact Hpolicy].
Qed.

(** X4: with a branch name other than [undefined] ([null] and the empty
    string included) and an identifier that resolves to [projectUrl],
    [getRawFile] does not ask for the project: it sends the one request
    [GET {projectUrl}/repository/files/{encodedFilePath}/raw?ref={branchName}],
    returns the body of a reply 200, [undefined] for another status in
    200..299, and throws a [GitlabApiError] exactly when the request
    fails. *)
Theorem X4_getRawFile_branch_given (identifier : js_value) (filePath : string)
  (branchName : js_value) (net : Network) (w : World) (projectUrl : string) :
  branchName <> JUndefined ->
  getProjectUrl identifier net w = (Return projectUrl, w) ->
  let address :=
    projectUrl ++ "/repository/files/" ++ encodeURIComponent (trimSlashes filePath)
    ++ "/raw?ref=" ++ ToString branchName in
  let req := {| method := GET; url := address; body := None;
                options := config (this w) |} in
  let out := getRawFile identifier filePath branchName net w in
  sent (snd out) = (sent w ++ [req])%list
  /\ raw_file_policy (net (sent w) req) (fst out).
Proof.
  intros Hgiven Hurl address req out.
  exact (getRawFile_branch_given_run identifier filePath branchName net w projectUrl
           Hgiven Hurl).
Qed.

Lemma X4_witness :
  let req := {| method := GET;
                url := "https://example.com/api/v4/projects/7/repository/files/"
                       ++ "docs%2FREADME.md/raw?ref=null";
                body := None; options := config example_driver |} in
  let out := getRawFile (JInteger 7) "/docs/README.md" JNull example_gitlab example_world in
  sent (snd out) = [req]
  /\ raw_file_policy (example_gitlab [] req) (fst out).
Proof.
  apply (X4_getRawFile_branch_given (JInteger 7) "/docs/README.md" JNull
           example_gitlab example_world "https://example.com/api/v4/projects/7");
    [discriminate | reflexivity].
Defined.

(** [getRawFile] without a branch name, once the project has come back
    with a status in 200..299: what happens next hangs on reading
    [default_branch] off the body. *)
Lemma getRawFile_default_run (identifier : js_value) (filePath : string)
  (net : Network) (w : World) (projectUrl : string) (project : Response) :
  getProjectUrl identifier net w = (Return projectUrl, w) ->
  net (sent w) (get_request (this w) projectUrl) = Reply project ->
  200 <= status project < 300 ->
  let first := get_request (this w) projectUrl in
  let w1 := {| this := this w; console := logged w ("GET > " ++ projectUrl);
               sent := (sent w ++ [first])%list |} in
  let out := getRawFile identifier filePath JUndefined net w in
  match default_branch (data project) with
  | Return branch =>
      let second := get_request (this w) (rawFileUrl projectUrl filePath branch) in
      sent (snd out) = (sent w ++ [first; second])%list
      /\ raw_file_policy (net (sent w ++ [first])%list second) (fst out)
  | Throw e => out = (Throw e, w1)
  end.
Proof.
  intros Hurl Hnet Hok first w1 out.
  apply validateStatus_spec in Hok.
  pose proof (getProject_run identifier net w projectUrl Hurl) as Hproject.
  cbv zeta in Hproject. fold first in Hproject. fold first in Hnet.
  rewrite Hnet, Hok in Hproject. fold w1 in Hproject.
  assert (Hurl1 : getProjectUrl identifier net w1 = (Return projectUrl, w1))
    by (apply (getProjectUrl_frame identifier net w w1); [reflexivity | exact Hurl]).
  destruct (default_branch (data project)) as [branch | e] eqn:Hbranch.
  - intros second.
    destruct (raw_fetch_run (rawFileUrl projectUrl filePath branch) filePath branch
                identifier net w1) as (Hsent & _ & Hpolicy).
    cbv zeta in Hsent, Hpolicy.
    match type of Hsent with
    | sent (snd ?fetch) = _ =>
        assert (Hrun : getRawFile identifier filePath JUndefined net w = fetch)
    end.
    { unfold getRawFile. unfold bind at 1. unfold bind at 1.
      rewrite Hproject. unfold lift. rewrite Hbranch.
      unfold bind at 1. rewrite Hurl1. reflexivity. }
    subst out. rewrite Hrun. split.
    + rewrite Hsent. subst w1 first second. cbn [sent this].
      rewrite <- app_assoc. reflexivity.
    + exact Hpolicy.
  - subst out. unfold getRawFile. unfold bind at 1. unfold bind at 1.
    rewrite Hproject. unfold lift. rewrite Hbranch. reflexivity.
Qed.

(** X5: when the project comes back as an object without the property
    [default_branch], [getRawFile] without a branch name goes on all the
    same: its second request asks for the file on the branch named
    ["undefined"]. *)
Theorem X5_getRawFile_without_default_branch (identifier : js_value)
  (filePath : string) (net : Network) (w : World) (projectUrl : string)
  (code : Z) (properties : list (string * js_value)) :
  getProjectUrl identifier net w = (Return projectUrl, w) ->
  net (sent w) (get_request (this w) projectUrl)
    = Reply {| status := code; data := JObject properties |} ->
  200 <= code < 300 ->
  lookup "default_branch" properties = None ->
  let first := get_request (this w) projectUrl in
  let second :=
    get_request (this w)
      (projectUrl ++ "/repository/files/" ++ encodeURIComponent (trimSlashes filePath)
       ++ "/raw?ref=undefined") in
  let out := getRawFile identifier filePath JUndefined net w in
  sent (snd out) = (sent w ++ [first; second])%list
  /\ raw_file_policy (net (sent w ++ [first])%list second) (fst out).
Proof.
  intros Hurl Hnet Hok Hmissing first second out.
  pose proof (getRawFile_default_run identifier filePath net w projectUrl
                {| status := code; data := JObject properties |} Hurl Hnet Hok) as Hrun.
  cbv zeta in Hrun. cbn [data default_branch] in Hrun. rewrite Hmissing in Hrun.
  exact Hrun.
Qed.

Lemma X5_witness :
  let net := always (Reply {| status := 200; data := JObject [("id", JInteger 7)] |}) in
  let first := get_request example_driver "https://example.com/api/v4/projects/7" in
  let second :=
    get_request example_driver
      ("https://example.com/api/v4/projects/7/repository/files/README.md"
       ++ "/raw?ref=undefined") in
  let out := getRawFile (JInteger 7) "README.md" JUndefined net example_world in
  sent (snd out) = [first; second]
  /\ raw_file_policy (net [first] second) (fst out).
Proof.
  apply (X5_getRawFile_without_default_branch (JInteger 7) "README.md"
           (always (Reply {| status := 200; data := JObject [("id", JInteger 7)] |}))
           example_world "https://example.com/api/v4/projects/7" 200
           [("id", JInteger 7)]);
    [reflexivity | reflexivity | lia | reflexivity].
Defined.

(** X6: when the project comes back with a status in 200..299 and a
    body that is [null] or [undefined], [getRawFile] without a branch
    name throws a [TypeError], which is not wrapped in a
    [GitlabApiError], and the request for the project is the only one it
    has sent. *)
Theorem X6_getRawFile_project_without_body (identifier : js_value)
  (filePath : string) (net : Network) (w : World) (projectUrl : string)
  (project : Response) :
  getProjectUrl identifier net w = (Return projectUrl, w) ->
  net (sent w) (get_request (this w) projectUrl) = Reply project ->
  200 <= status project < 300 ->
  data project = JNull \/ data project = JUndefined ->
  let out := getRawFile identifier filePath JUndefined net w in
  is_TypeError_thrown (fst out)
  /\ sent (snd out) = (sent w ++ [get_request (this w) projectUrl])%list.
Proof.
  intros Hurl Hnet Hok Hbody out.
  pose proof (getRawFile_default_run identifier filePath net w projectUrl project
                Hurl Hnet Hok) as Hrun.
  cbv zeta in Hrun. fold out in Hrun.
  destruct Hbody as [Hbody | Hbody]; rewrite Hbody in Hrun; cbn [default_branch] in Hrun;
    rewrite Hrun; (split; [eexists; reflexivity | reflexivity]).
Qed.

Lemma X6_witness :
  let net := always (Reply {| status := 200; data := JNull |}) in
  let out := getRawFile (JInteger 7) "README.md" JUndefined net example_world in
  is_TypeError_thrown (fst out)
  /\ sent (snd out)
     = [get_request example_driver "https://example.com/api/v4/projects/7"].
Proof.
  apply (X6_getRawFile_project_without_body (JInteger 7) "README.md"
           (always (Reply {| status := 200; data := JNull |})) example_world
           "https://example.com/api/v4/projects/7" {| status := 200; data := JNull |});
    [reflexivity | reflexivity | cbn; lia | left; reflexivity].
Defined.

(** ** How many requests, and of what shape *)

Lemma sends_nothing {A : Type} (self : GitlabApiDriver) (n : nat) (m : M A) :
  (forall net w, this (snd (m net w)) = this w /\ sent (snd (m net w)) = sent w) ->
  sends self n m.
Proof.
  intros H net w Hself. destruct (H net w) as [Hthis Hsent]. split; [congruence | ].
  exists []. rewrite app_nil_r. repeat split; [exact Hsent | cbn; lia | constructor].
Qed.

Lemma sends_ret {A : Type} (self : GitlabApiDriver) (n : nat) (a : A) :
  sends self n (ret a).
Proof. apply sends_nothing. intros; split; reflexivity. Qed.

Lemma sends_throw {A : Type} (self : GitlabApiDriver) (n : nat) (e : Thrown) :
  sends self n (@throw A e).
Proof. apply sends_nothing. intros; split; reflexivity. Qed.

Lemma sends_lift {A : Type} (self : GitlabApiDriver) (n : nat) (c : Completion A) :
  sends self n (lift c).
Proof. apply sends_nothing. intros; split; reflexivity. Qed.

Lemma sends_log_if_verbose (self : GitlabApiDriver) (n : nat) (line : string) :
  sends self n (log_if_verbose line).
Proof.
  apply sends_nothing. intros net [o lines reqs]. unfold log_if_verbose. run_method.
  destruct (VERBOSE o); split; reflexivity.
Qed.

Lemma sends_axios_request (self : GitlabApiDriver) (n : nat) (req : Request) :
  well_formed self req -> sends self (S n) (axios_request req).
Proof.
  intros Hreq net w Hself.
  assert (Hworld : snd (axios_request req net w)
                   = {| this := this w; console := console w;
                        sent := (sent w ++ [req])%list |}).
  { unfold axios_request. destruct (net (sent w) req) as [res | m]; [ | reflexivity].
    destruct (validateStatus (status res)); reflexivity. }
  rewrite Hworld. cbn [this sent]. split; [exact Hself | ].
  exists [req]. repeat split; [cbn; lia | constructor; [exact Hreq | constructor]].
Qed.

Lemma sends_weaken {A : Type} (self : GitlabApiDriver) (n n' : nat) (m : M A) :
  (n <= n')%nat -> sends self n m -> sends self n' m.
Proof.
  intros Hle H net w Hself. destruct (H net w Hself) as (Hthis & new & Hsent & Hlen & Hall).
  split; [exact Hthis | ]. exists new. repeat split; [exact Hsent | lia | exact Hall].
Qed.

Lemma sends_bind {A B : Type} (self : GitlabApiDriver) (n k : nat)
  (m : M A) (f : A -> M B) :
  sends self n m -> (forall a, sends self k (f a)) -> sends self (n + k) (bind m f).
Proof.
  intros Hm Hf net w Hself. unfold bind.
  destruct (Hm net w Hself) as (Hthis & new & Hsent & Hlen & Hall).
  destruct (m net w) as [[a | e] w1]; cbn [snd] in *.
  - destruct (Hf a net w1 Hthis) as (Hthis2 & new2 & Hsent2 & Hlen2 & Hall2).
    split; [exact Hthis2 | ]. exists (new ++ new2)%list. repeat split.
    + rewrite Hsent2, Hsent, app_assoc. reflexivity.
    + rewrite length_app. lia.
    + apply Forall_app. split; assumption.
  - split; [exact Hthis | ]. exists new. repeat split; [exact Hsent | lia | exact Hall].
Qed.

Lemma sends_try_catch {A : Type} (self : GitlabApiDriver) (n k : nat)
  (body : M A) (handler : Thrown -> M A) :
  sends self n body -> (forall e, sends self k (handler e)) ->
  sends self (n + k) (try_catch body handler).
Proof.
  intros Hbody Hhandler net w Hself. unfold try_catch.
  destruct (Hbody net w Hself) as (Hthis & new & Hsent & Hlen & Hall).
  destruct (body net w) as [[a | e] w1]; cbn [snd] in *.
  - split; [exact Hthis | ]. exists new. repeat split; [exact Hsent | lia | exact Hall].
  - destruct (Hhandler e net w1 Hthis) as (Hthis2 & new2 & Hsent2 & Hlen2 & Hall2).
    split; [exact Hthis2 | ]. exists (new ++ new2)%list. repeat split.
    + rewrite Hsent2, Hsent, app_assoc. reflexivity.
    + rewrite length_app. lia.
    + apply Forall_app. split; assumption.
Qed.

(** What follows [this] in a method may take it to be the driver the
    method runs on. *)
Lemma sends_get_this {B : Type} (self : GitlabApiDriver) (n : nat)
  (f : GitlabApiDriver -> M B) :
  sends self n (f self) -> sends self n (bind get_this f).
Proof.
  intros Hf net w Hself. unfold bind, get_this. rewrite Hself. exact (Hf net w Hself).
Qed.

(** What follows [getProjectUrl] in a method may take the address to be
    under the API root. *)
Lemma sends_getProjectUrl {B : Type} (self : GitlabApiDriver) (n : nat)
  (identifier : js_value) (f : string -> M B) :
  (forall rest, sends self n (f (API_URL self ++ rest))) ->
  sends self n (bind (getProjectUrl identifier) f).
Proof.
  intros Hf net w Hself. unfold bind. rewrite getProjectUrl_run. rewrite Hself.
  cbv zeta.
  destruct (id _) as [number | ]; [exact (Hf _ net w Hself) | ].
  destruct (path _) as [p | ]; [exact (Hf _ net w Hself) | ].
  cbn [snd]. split; [exact Hself | ].
  exists []. rewrite app_nil_r. repeat split; [cbn; lia | constructor].
Qed.

Create HintDb sends discriminated.

#[local] Hint Resolve sends_ret sends_throw sends_lift sends_log_if_verbose : sends.

Lemma well_formed_get (self : GitlabApiDriver) (rest : string) :
  well_formed self (get_request self (API_URL self ++ rest)).
Proof. split; [exists rest; reflexivity | left; reflexivity]. Qed.

Lemma well_formed_get_under (self : GitlabApiDriver) (rest more : string) :
  well_formed self (get_request self ((API_URL self ++ rest) ++ more)).
Proof. rewrite append_assoc. apply well_formed_get. Qed.

(** One logged request inside a [try]: the shape of every method. *)
Ltac sends_one :=
  apply (sends_try_catch _ 1 0);
  [ apply (sends_bind _ 0 1); [auto with sends | intros _ ];
    lazymatch goal with
    | |- sends _ _ (bind get_this _) => apply sends_get_this
    | _ => idtac
    end;
    apply (sends_bind _ 1 0); [ | intros res; try destruct (_ =? _); auto with sends ];
    apply sends_axios_request
  | intros e; try destruct (is_not_found e); auto with sends ].

Lemma sends_getProject (self : GitlabApiDriver) (identifier : js_value) :
  sends self 1 (getProject identifier).
Proof.
  unfold getProject. apply sends_getProjectUrl. intros rest. sends_one.
  apply well_formed_get.
Qed.

Lemma sends_getBranches (self : GitlabApiDriver) (projectIdentifier : js_value) :
  sends self 1 (getBranches projectIdentifier).
Proof.
  unfold getBranches. apply sends_getProjectUrl. intros rest. cbv zeta. sends_one.
  apply well_formed_get_under.
Qed.

Lemma sends_branchExists (self : GitlabApiDriver) (projectId branchName : js_value) :
  sends self 1 (branchExists projectId branchName).
Proof.
  unfold branchExists. apply sends_get_this. cbv zeta. sends_one.
  apply well_formed_get.
Qed.

Lemma sends_fileExists (self : GitlabApiDriver) (projectId branchName : js_value)
  (filePath : string) :
  sends self 1 (fileExists projectId branchName filePath).
Proof.
  unfold fileExists. apply sends_get_this. cbv zeta. sends_one.
  apply well_formed_get.
Qed.

Lemma sends_postCommit (self : GitlabApiDriver) (projectId commitObject : js_value) :
  sends self 1 (postCommit projectId commitObject).
Proof.
  unfold postCommit. apply sends_get_this. cbv zeta. sends_one.
  split; [eexists; reflexivity | right; reflexivity].
Qed.

Lemma sends_postSnippetCommit (self : GitlabApiDriver)
  (snippetId commitObject : js_value) :
  sends self 1 (postSnippetCommit snippetId commitObject).
Proof.
  unfold postSnippetCommit. apply sends_get_this. cbv zeta. sends_one.
  split; [eexists; reflexivity | right; reflexivity].
Qed.

Lemma sends_getVersion (self : GitlabApiDriver) : sends self 1 getVersion.
Proof.
  unfold getVersion. apply sends_get_this. cbv zeta. sends_one.
  apply well_formed_get.
Qed.

Lemma sends_getRawFile (self : GitlabApiDriver) (projectIdentifier : js_value)
  (filePath : string) (branchName : js_value) :
  sends self 2 (getRawFile projectIdentifier filePath branchName).
Proof.
  unfold getRawFile. apply (sends_bind _ 1 1).
  - destruct branchName; auto with sends.
    apply (sends_bind _ 1 0); [apply sends_getProject | intros project; auto with sends].
  - intros branch. cbv zeta. apply sends_getProjectUrl. intros rest. sends_one.
    apply well_formed_get_under.
Qed.

Lemma sends_only_getProjectUrl (self : GitlabApiDriver) (identifier : js_value) :
  sends self 0 (getProjectUrl identifier).
Proof.
  apply sends_nothing. intros net w. rewrite getProjectUrl_run. split; reflexivity.
Qed.

Lemma sends_appends {A : Type} (n : nat) (m : M A) :
  (forall self, sends self n m) -> appends_at_most n m.
Proof.
  intros H net w. destruct (H (this w) net w eq_refl) as (_ & new & Hsent & Hlen & _).
  exists new. split; assumption.
Qed.

(** X7: a call of a method never drops or reorders the requests sent
    before it, and adds few of its own: [getProjectUrl] none, [getRawFile]
    at most two, every other method at most one, whatever the arguments
    and whatever the remote end answers. *)
Theorem X7_request_budget :
  (forall identifier, appends_at_most 0 (getProjectUrl identifier))
  /\ (forall identifier, appends_at_most 1 (getProject identifier))
  /\ (forall projectIdentifier, appends_at_most 1 (getBranches projectIdentifier))
  /\ (forall projectId branchName, appends_at_most 1 (branchExists projectId branchName))
  /\ (forall projectId branchName filePath,
        appends_at_most 1 (fileExists projectId branchName filePath))
  /\ (forall projectId commitObject,
        appends_at_most 1 (postCommit projectId commitObject))
  /\ (forall snippetId commitObject,
        appends_at_most 1 (postSnippetCommit snippetId commitObject))
  /\ (forall projectIdentifier filePath branchName,
        appends_at_most 2 (getRawFile projectIdentifier filePath branchName))
  /\ appends_at_most 1 getVersion.
Proof.
  repeat apply conj; intros; apply sends_appends; intros self.
  - apply sends_only_getProjectUrl.
  - apply sends_getProject.
  - apply sends_getBranches.
  - apply sends_branchExists.
  - apply sends_fileExists.
  - apply sends_postCommit.
  - apply sends_postSnippetCommit.
  - apply sends_getRawFile.
  - apply sends_getVersion.
Qed.

Lemma new_GitlabApiDriver_fields (baseUrl accessToken : string) (verbose : bool) :
  let driver := new_GitlabApiDriver baseUrl accessToken verbose in
  VERBOSE driver = verbose
  /\ API_URL driver = BASE_URL driver ++ API_PATH
  /\ AT driver = accessToken
  /\ config driver = {| headers := [("PRIVATE-TOKEN", accessToken)] |}.
Proof.
  unfold new_GitlabApiDriver. rewrite constructor_run. repeat split.
Qed.

Lemma well_formed_constructed (baseUrl accessToken : string) (verbose : bool)
  (req : Request) :
  well_formed (new_GitlabApiDriver baseUrl accessToken verbose) req ->
  secure_with_token accessToken req.
Proof.
  destruct (new_GitlabApiDriver_fields baseUrl accessToken verbose)
    as (_ & Hroot & Htoken & Hconfig).
  destruct (BASE_URL_secure baseUrl accessToken verbose) as [host Hbase].
  cbv zeta in *. intros [[rest Hurl] Hoptions]. split.
  - exists (host ++ API_PATH ++ rest).
    rewrite Hurl, Hroot, Hbase, !append_assoc. reflexivity.
  - destruct Hoptions as [-> | ->].
    + rewrite Hconfig. left. reflexivity.
    + unfold json_config. rewrite Htoken. left. reflexivity.
Qed.

Lemma sends_adds_secure {A : Type} (baseUrl accessToken : string) (verbose : bool)
  (n : nat) (m : M A) :
  sends (new_GitlabApiDriver baseUrl accessToken verbose) n m ->
  adds_only (secure_with_token accessToken)
    (new_GitlabApiDriver baseUrl accessToken verbose) m.
Proof.
  intros H net lines before.
  destruct (H net {| this := new_GitlabApiDriver baseUrl accessToken verbose;
                     console := lines; sent := before |} eq_refl)
    as (_ & new & Hsent & _ & Hall).
  exists new. split; [exact Hsent | ].
  revert Hall. apply Forall_impl. intros req. apply well_formed_constructed.
Qed.

(** X8: on a driver made by the constructor, whatever base URL it was
    given, every request of every method goes to an [https] address and
    carries the access token in the header [PRIVATE-TOKEN]. *)
Theorem X8_requests_secure_and_authenticated (baseUrl accessToken : string)
  (verbose : bool) :
  let driver := new_GitlabApiDriver baseUrl accessToken verbose in
  let secure {A : Type} (m : M A) :=
    adds_only (secure_with_token accessToken) driver m in
  (forall identifier, secure (getProject identifier))
  /\ (forall projectIdentifier, secure (getBranches projectIdentifier))
  /\ (forall projectId branchName, secure (branchExists projectId branchName))
  /\ (forall projectId branchName filePath,
        secure (fileExists projectId branchName filePath))
  /\ (forall projectId commitObject, secure (postCommit projectId commitObject))
  /\ (forall snippetId commitObject,
        secure (postSnippetCommit snippetId commitObject))
  /\ (forall projectIdentifier filePath branchName,
        secure (getRawFile projectIdentifier filePath branchName))
  /\ secure getVersion.
Proof.
  intros driver secure. subst secure driver.
  repeat apply conj; intros.
  - apply (sends_adds_secure _ _ _ 1), sends_getProject.
  - apply (sends_adds_secure _ _ _ 1), sends_getBranches.
  - apply (sends_adds_secure _ _ _ 1), sends_branchExists.
  - apply (sends_adds_secure _ _ _ 1), sends_fileExists.
  - apply (sends_adds_secure _ _ _ 1), sends_postCommit.
  - apply (sends_adds_secure _ _ _ 1), sends_postSnippetCommit.
  - apply (sends_adds_secure _ _ _ 2), sends_getRawFile.
  - apply (sends_adds_secure _ _ _ 1), sends_getVersion.
Qed.

(** ** What the methods throw *)

Section Throws.

Context {A B : Type}.
Variable allowed : Thrown -> Prop.







End Throws.




(** ** The verbose flag *)

(** Two worlds that differ in the verbose flag and the console only
    give the same answer and differ in no more afterwards. *)
Lemma deaf_related {A : Type} (m : M A) (w w' : World) (net : Network) :
  deaf_to_verbose m -> hush w = hush w' ->
  fst (m net w) = fst (m net w')
  /\ hush (snd (m net w)) = hush (snd (m net w')).
Proof.
  intros Hm Hw. destruct (Hm net w) as [H1 H2]. destruct (Hm net w') as [H1' H2'].
  rewrite Hw in H1, H2. split; congruence.
Qed.

Section Deaf.

Context {A B : Type}.

Lemma deaf_ret (a : A) : deaf_to_verbose (ret a).
Proof. intros net w. split; reflexivity. Qed.

Lemma deaf_throw (e : Thrown) : deaf_to_verbose (@throw A e).
Proof. intros net w. split; reflexivity. Qed.

Lemma deaf_lift (c : Completion A) : deaf_to_verbose (lift c).
Proof. intros net w. split; reflexivity. Qed.

Lemma deaf_bind (m : M A) (f : A -> M B) :
  deaf_to_verbose m -> (forall a, deaf_to_verbose (f a)) -> deaf_to_verbose (bind m f).
Proof.
  intros Hm Hf net w. unfold bind. destruct (Hm net w) as [Hfst Hsnd].
  destruct (m net w) as [[a | e] w1]; destruct (m net (hush w)) as [[a' | e'] w1'];
    cbn [fst snd] in *; try discriminate Hfst.
  - injection Hfst as <-. apply deaf_related; [apply Hf | exact Hsnd].
  - split; [congruence | exact Hsnd].
Qed.

Lemma deaf_try_catch (body : M A) (handler : Thrown -> M A) :
  deaf_to_verbose body -> (forall e, deaf_to_verbose (handler e)) ->
  deaf_to_verbose (try_catch body handler).
Proof.
  intros Hbody Hhandler net w. unfold try_catch. destruct (Hbody net w) as [Hfst Hsnd].
  destruct (body net w) as [[a | e] w1];
    destruct (body net (hush w)) as [[a' | e'] w1'];
    cbn [fst snd] in *; try discriminate Hfst.
  - split; [exact Hfst | exact Hsnd].
  - injection Hfst as <-. apply deaf_related; [apply Hhandler | exact Hsnd].
Qed.

(** What follows [this] in a method may read every property of the
    driver but the verbose flag. *)
Lemma deaf_get_this (f : GitlabApiDriver -> M B) :
  (forall self net w, f self net w = f (mute self) net w) ->
  (forall self, deaf_to_verbose (f self)) ->
  deaf_to_verbose (bind get_this f).
Proof.
  intros Hmute Hf net w. unfold bind, get_this. cbn [this hush].
  rewrite <- (Hmute (this w) net (hush w)). apply Hf.
Qed.

End Deaf.

Lemma deaf_log_if_verbose (line : string) : deaf_to_verbose (log_if_verbose line).
Proof.
  intros net [self lines reqs]. unfold log_if_verbose. run_method.
  destruct (VERBOSE self); split; reflexivity.
Qed.

Lemma deaf_axios_request (req : Request) : deaf_to_verbose (axios_request req).
Proof.
  intros net [self lines reqs]. unfold axios_request, hush. cbn [this console sent].
  destruct (net reqs req) as [res | m]; [ | split; reflexivity].
  destruct (validateStatus (status res)); split; reflexivity.
Qed.

Create HintDb deaf discriminated.

#[local] Hint Resolve deaf_ret deaf_throw deaf_lift deaf_log_if_verbose
  deaf_axios_request : deaf.

Ltac deaf :=
  repeat first
    [ solve [ auto with deaf ]
    | progress cbv zeta
    | lazymatch goal with
      | |- deaf_to_verbose (bind get_this _) =>
          apply deaf_get_this; [ intros [? ? ? ? ?] ? ?; reflexivity | intro ]
      | |- deaf_to_verbose (bind _ _) => apply deaf_bind; [ | intro ]
      | |- deaf_to_verbose (try_catch _ _) => apply deaf_try_catch; [ | intro ]
      | |- deaf_to_verbose (axios_get _ _) => apply deaf_axios_request
      | |- deaf_to_verbose (axios_post _ _ _) => apply deaf_axios_request
      | |- deaf_to_verbose (axios_put _ _ _) => apply deaf_axios_request
      | |- deaf_to_verbose (match ?x with _ => _ end) => destruct x
      end ].

Lemma deaf_getProjectUrl (identifier : js_value) :
  deaf_to_verbose (getProjectUrl identifier).
Proof. unfold getProjectUrl. deaf. Qed.

#[local] Hint Resolve deaf_getProjectUrl : deaf.

Lemma deaf_getProject (identifier : js_value) : deaf_to_verbose (getProject identifier).
Proof. unfold getProject. deaf. Qed.

#[local] Hint Resolve deaf_getProject : deaf.

(** X10: the verbose flag is for the console only.  Run in two worlds
    that differ at most in the verbose flag and in what the console
    holds, a method completes the same way, with the same value or the
    same error, and has sent the same requests. *)
Theorem X10_verbose_changes_nothing (w w' : World) (net : Network) :
  hush w = hush w' ->
  let same {A : Type} (m : M A) :=
    fst (m net w) = fst (m net w')
    /\ sent (snd (m net w)) = sent (snd (m net w')) in
  (forall identifier, same (getProjectUrl identifier))
  /\ (forall identifier, same (getProject identifier))
  /\ (forall projectIdentifier, same (getBranches projectIdentifier))
  /\ (forall projectId branchName, same (branchExists projectId branchName))
  /\ (forall projectId branchName filePath,
        same (fileExists projectId branchName filePath))
  /\ (forall projectId commitObject, same (postCommit projectId commitObject))
  /\ (forall snippetId commitObject,
        same (postSnippetCommit snippetId commitObject))
  /\ (forall projectIdentifier filePath branchName,
        same (getRawFile projectIdentifier filePath branchName))
  /\ same getVersion.
Proof.
  intros Hw same.
  assert (Hsame : forall (A : Type) (m : M A), deaf_to_verbose m -> same A m).
  { intros A m Hm. destruct (deaf_related m w w' net Hm Hw) as [Hfst Hsnd].
    split; [exact Hfst | ]. apply (f_equal sent) in Hsnd. exact Hsnd. }
  repeat match goal with |- (forall _, _) /\ _ => split end; intros; apply Hsame.
  - apply deaf_getProjectUrl.
  - apply deaf_getProject.
  - unfold getBranches. deaf.
  - unfold branchExists. deaf.
  - unfold fileExists. deaf.
  - unfold postCommit. deaf.
  - unfold postSnippetCommit. deaf.
  - unfold getRawFile. deaf.
  - unfold getVersion. deaf.
Qed.

Lemma X10_witness :
  let w := example_world in
  let w' := {| this := new_GitlabApiDriver "example.com" "glpat-token" true;
               console := ["started"]; sent := [] |} in
  let net := example_gitlab in
  let same {A : Type} (m : M A) :=
    fst (m net w) = fst (m net w')
    /\ sent (snd (m net w)) = sent (snd (m net w')) in
  (forall identifier, same (getProjectUrl identifier))
  /\ (forall identifier, same (getProject identifier))
  /\ (forall projectIdentifier, same (getBranches projectIdentifier))
  /\ (forall projectId branchName, same (branchExists projectId branchName))
  /\ (forall projectId branchName filePath,
        same (fileExists projectId branchName filePath))
  /\ (forall projectId commitObject, same (postCommit projectId commitObject))
  /\ (forall snippetId commitObject,
        same (postSnippetCommit snippetId commitObject))
  /\ (forall projectIdentifier filePath branchName,
        same (getRawFile projectIdentifier filePath branchName))
  /\ same getVersion.
Proof.
  apply (X10_verbose_changes_nothing example_world
           {| this := new_GitlabApiDriver "example.com" "glpat-token" true;
              console := ["started"]; sent := [] |} example_gitlab).
  reflexivity.
Defined.

(** ** The console *)

Ltac case_on_run :=
  repeat (run_method;
          match goal with
          | |- context [match ?x with _ => _ end] =>
              lazymatch x with
              | true => fail
              | false => fail
              | _ => idtac
              end;
              lazymatch type of x with
              | Outcome => destruct x
              | bool => destruct x
              | option _ => destruct x
              | Completion js_value => destruct x
              end
          end).

Ltac log_leaf :=
  cbn [snd sent console];
  first
    [ exists []; split; cbn [map]; rewrite ?app_nil_r; reflexivity
    | eexists; split;
      [ first [ reflexivity | rewrite <- app_assoc; reflexivity ]
      | cbn [map]; rewrite ?app_nil_r, <- ?app_assoc; reflexivity ] ].

Ltac logs :=
  let net := fresh "net" in
  let verbose := fresh "verbose" in
  let lines := fresh "lines" in
  let reqs := fresh "reqs" in
  intros net [[verbose ? ? ? ?] lines reqs]; cbn [this VERBOSE];
  destruct verbose; case_on_run; log_leaf.

(** X11: with the verbose flag on, a method writes one line to the
    console for each request it sends, [METHOD > address], in the order
    of the requests, and nothing else; with the flag off it writes
    nothing. *)
Theorem X11_console_mirrors_requests :
  (forall identifier, logs_its_requests (getProjectUrl identifier))
  /\ (forall identifier, logs_its_requests (getProject identifier))
  /\ (forall projectIdentifier, logs_its_requests (getBranches projectIdentifier))
  /\ (forall projectId branchName,
        logs_its_requests (branchExists projectId branchName))
  /\ (forall projectId branchName filePath,
        logs_its_requests (fileExists projectId branchName filePath))
  /\ (forall projectId commitObject,
        logs_its_requests (postCommit projectId commitObject))
  /\ (forall snippetId commitObject,
        logs_its_requests (postSnippetCommit snippetId commitObject))
  /\ (forall projectIdentifier filePath branchName,
        logs_its_requests (getRawFile projectIdentifier filePath branchName))
  /\ logs_its_requests getVersion.
Proof.
  repeat match goal with |- (forall _, _) /\ _ => split end; intros.
  - unfold getProjectUrl. logs.
  - unfold getProject, getProjectUrl. logs.
  - unfold getBranches, getProjectUrl. logs.
  - unfold branchExists. logs.
  - unfold fileExists. logs.
  - unfold postCommit, json_config. logs.
  - unfold postSnippetCommit, json_config. logs.
  - unfold getRawFile, getProject, getProjectUrl. destruct branchName; logs.
  - unfold getVersion. logs.
Qed.

(** ** Construction, once more *)

(** X12: the constructor writes every property of the object, so the
    driver it leaves does not depend on what the object, the console or
    the network were before, and it touches neither the console nor the
    requests.  With [trimmed] the base URL after [trimTailingSlash]: a
    leading [http://] is replaced by [https://] and the rest is kept as
    it is; a base URL that starts with [https://] is kept; any other gets
    [https://] put in front.  In every case the base URL of the driver
    starts with [https://], and the request configuration holds the
    access token under [PRIVATE-TOKEN] and nothing else. *)
Theorem X12_constructor_normal_form (baseUrl accessToken : string) (verbose : bool)
  (net : Network) (w : World) :
  let trimmed := trimTailingSlash baseUrl in
  let after := snd (constructor baseUrl accessToken verbose net w) in
  let driver := this after in
  driver = new_GitlabApiDriver baseUrl accessToken verbose
  /\ console after = console w
  /\ sent after = sent w
  /\ (forall rest, trimmed = "http://" ++ rest -> BASE_URL driver = "https://" ++ rest)
  /\ (forall rest, trimmed = "https://" ++ rest -> BASE_URL driver = trimmed)
  /\ (Str.startsWith trimmed "http://" = false ->
      Str.startsWith trimmed "https://" = false ->
      BASE_URL driver = "https://" ++ trimmed)
  /\ (exists rest, BASE_URL driver = "https://" ++ rest)
  /\ VERBOSE driver = verbose
  /\ AT driver = accessToken
  /\ config driver = {| headers := [("PRIVATE-TOKEN", accessToken)] |}.
Proof.
  intros trimmed after driver.
  assert (Hsame : driver = new_GitlabApiDriver baseUrl accessToken verbose).
  { subst driver after. unfold new_GitlabApiDriver. rewrite !constructor_run.
    reflexivity. }
  split; [exact Hsame | ].
  split; [subst after; rewrite constructor_run; reflexivity | ].
  split; [subst after; rewrite constructor_run; reflexivity | ].
  assert (Hbase : BASE_URL driver =
                  let secure :=
                    if Str.startsWith trimmed "http://"
                    then Str.replace trimmed "http://" "https://"
                    else trimmed in
                  if negb (Str.startsWith secure "https://")
                  then "https://" ++ secure else secure).
  { subst driver after. rewrite constructor_run. reflexivity. }
  cbv zeta in Hbase.
  repeat apply conj.
  - intros rest Htrimmed. rewrite Hbase.
    assert (Hhttp : String.prefix "http://" trimmed = true)
      by (rewrite Htrimmed; apply prefix_append).
    unfold Str.startsWith. rewrite Hhttp, (replace_prefix _ _ _ Hhttp), prefix_append.
    rewrite Htrimmed. reflexivity.
  - intros rest Htrimmed. rewrite Hbase. unfold Str.startsWith.
    assert (Hhttp : String.prefix "http://" trimmed = false)
      by (rewrite Htrimmed; reflexivity).
    rewrite Hhttp, Htrimmed, prefix_append. reflexivity.
  - intros Hhttp Hhttps. rewrite Hbase, Hhttp, Hhttps. reflexivity.
  - rewrite Hsame. apply BASE_URL_secure.
  - rewrite Hsame. apply new_GitlabApiDriver_fields.
  - rewrite Hsame. apply new_GitlabApiDriver_fields.
  - rewrite Hsame. apply new_GitlabApiDriver_fields.
Qed.

(** ** Encoded components *)

Lemma hexDigit_unescaped (c : ascii) :
  URI.unescaped (URI.hexDigit (nat_of_ascii c / 16)) = true
  /\ URI.unescaped (URI.hexDigit (nat_of_ascii c mod 16)) = true.
Proof.
  destruct c as [[] [] [] [] [] [] [] []]; split; vm_compute; reflexivity.
Qed.

Lemma encodeURIComponent_characters (s : string) (c : ascii) :
  Str.In c (encodeURIComponent s) -> c = "%"%char \/ URI.unescaped c = true.
Proof.
  induction s as [| a rest IH]; cbn [encodeURIComponent]; [intros [] | ].
  destruct (URI.unescaped a) eqn:Ha.
  - cbn [Str.In]. intros [<- | H]; [right; exact Ha | apply IH, H].
  - unfold URI.escape. cbn [append Str.In].
    destruct (hexDigit_unescaped a) as [Hhigh Hlow].
    intros [<- | [<- | [<- | H]]];
      [left; reflexivity | right; exact Hhigh | right; exact Hlow | apply IH, H].
Qed.

Lemma encodeURIComponent_no_delimiter (s : string) :
  no_delimiter (encodeURIComponent s).
Proof.
  intros c Hc. apply encodeURIComponent_characters in Hc.
  destruct Hc as [-> | Hc]; repeat split; try discriminate;
    intros ->; discriminate Hc.
Qed.

(** X13: a file path and the path of a project enter an address as one
    segment: what [fileExists] and [getRawFile] put between
    [/repository/files/] and the rest, and what [getProjectUrl] puts
    after [/projects/] for a path, holds none of the delimiters
    [/ ? # & =], whatever the path. *)
Theorem X13_paths_are_one_segment (projectId branchName identifier : js_value)
  (filePath : string) (net : Network) (w : World) :
  (exists segment,
     no_delimiter segment
     /\ sent (snd (fileExists projectId branchName filePath net w))
        = (sent w
           ++ [get_request (this w)
                 (API_URL (this w) ++ "/projects/" ++ ToString projectId
                  ++ "/repository/files/" ++ segment
                  ++ "?ref=" ++ ToString branchName)])%list)
  /\ (forall p,
        id (resolveProjectIdentifier (BASE_URL (this w)) identifier) = None ->
        path (resolveProjectIdentifier (BASE_URL (this w)) identifier) = Some p ->
        exists segment,
          no_delimiter segment
          /\ getProjectUrl identifier net w
             = (Return (API_URL (this w) ++ "/projects/" ++ segment), w))
  /\ (forall projectUrl,
        branchName <> JUndefined ->
        getProjectUrl identifier net w = (Return projectUrl, w) ->
        exists segment,
          no_delimiter segment
          /\ sent (snd (getRawFile identifier filePath branchName net w))
             = (sent w
                ++ [get_request (this w)
                      (projectUrl ++ "/repository/files/" ++ segment
                       ++ "/raw?ref=" ++ ToString branchName)])%list).
Proof.
  repeat apply conj.
  - exists (encodeURIComponent (trimSlashes filePath)).
    split; [apply encodeURIComponent_no_delimiter | apply fileExists_run].
  - intros p Hid Hpath. exists (encodeURIComponent (trimSlashes p)).
    split; [apply encodeURIComponent_no_delimiter | ].
    rewrite getProjectUrl_run. cbv zeta. rewrite Hid, Hpath. reflexivity.
  - intros projectUrl Hgiven Hurl. exists (encodeURIComponent (trimSlashes filePath)).
    split; [apply encodeURIComponent_no_delimiter | ].
    apply (getRawFile_branch_given_run identifier filePath branchName net w projectUrl
             Hgiven Hurl).
Qed.
